(** * GitLab secret trigger: a shallow embedding of [function-source/main.py]

    The Cloud Function relays Secret Manager audit-log events to the GitLab
    pipeline trigger API.  This development embeds the helper functions and
    the handler of [main.py] and proves the properties the specification
    states about them.

    Conventions of the embedding:
    - a Python [str] is a [string]; each character stands for one code point
      below 256, and [str.strip], [str.split] and [in] are written out below
      on that representation;
    - a Python [dict] with string keys is a [gmap string _];
    - [print], the Secret Manager lookup and the HTTP POST are recorded, in
      order, in a trace of [effect]s; the two remote services are functions
      of a [World];
    - a Python exception is a value of [exn], and a function that may raise
      returns a [result]. *)

From Stdlib Require Import ZArith Ascii String List Bool Lia.
From stdpp Require Import base gmap strings list fin_maps.

Local Open Scope Z_scope.

(* stdpp blocks the unfolding of string append; the proofs below compute
   with it. *)
#[local] Arguments String.append !_ _ : simpl nomatch.

(** ** Python string primitives *)

Module Py.

(** [s.startswith(p)] *)
Fixpoint startswith (p s : string) : bool :=
  match p, s with
  | EmptyString, _ => true
  | String _ _, EmptyString => false
  | String a p', String b s' => if Ascii.eqb a b then startswith p' s' else false
  end.

(** [sub in s]: some suffix of [s] starts with [sub]. *)
Fixpoint contains (sub s : string) : bool :=
  startswith sub s ||
  match s with
  | EmptyString => false
  | String _ s' => contains sub s'
  end.

(** [s[n:]] *)
Fixpoint drop (n : nat) (s : string) : string :=
  match n, s with
  | O, _ => s
  | S _, EmptyString => EmptyString
  | S n', String _ s' => drop n' s'
  end.

(** The cut at the leftmost occurrence of [sep], as [str.split] finds it
    with [str.find]: the text before it and the text after it. *)
Fixpoint cut (sep s : string) : option (string * string) :=
  if startswith sep s then Some (EmptyString, drop (String.length sep) s)
  else match s with
       | EmptyString => None
       | String c s' =>
           match cut sep s' with
           | Some (before, after) => Some (String c before, after)
           | None => None
           end
       end.

(** [s.split(sep, maxsplit)] for a non-empty [sep] and [maxsplit >= 0]:
    at most [maxsplit] cuts, left to right; the rest is the last piece. *)
Fixpoint splitn (maxsplit : nat) (sep s : string) : list string :=
  match maxsplit with
  | O => [s]
  | S n =>
      match cut sep s with
      | None => [s]
      | Some (before, after) => before :: splitn n sep after
      end
  end.

(** [s.split(sep)]: no limit on the number of cuts.  Every cut consumes
    at least one character of a non-empty [sep], so [length s] cuts are
    never exceeded (lemma [splitn_enough] below). *)
Definition split (sep s : string) : list string :=
  splitn (String.length s) sep s.

(** [ch.isspace()] for a code point below 256: TAB, LF, VT, FF, CR, the
    separators FS, GS, RS, US, SPACE, NEL (0x85) and NBSP (0xA0). *)
Definition isspace (c : ascii) : bool :=
  let n := N_of_ascii c in
  ((9 <=? n) && (n <=? 13) || (28 <=? n) && (n <=? 32)
   || (n =? 133) || (n =? 160))%N.

(** [s.lstrip()] *)
Fixpoint lstrip (s : string) : string :=
  match s with
  | EmptyString => EmptyString
  | String c s' => if isspace c then lstrip s' else s
  end.

(** [s.rstrip()] *)
Fixpoint rstrip (s : string) : string :=
  match s with
  | EmptyString => EmptyString
  | String c s' =>
      match rstrip s' with
      | EmptyString => if isspace c then EmptyString else String c EmptyString
      | r => String c r
      end
  end.

(** [s.strip()] *)
Definition strip (s : string) : string := rstrip (lstrip s).

(** [bool(s)] of a string: the empty string is falsy. *)
Definition truthy (s : string) : bool :=
  match s with EmptyString => false | String _ _ => true end.

End Py.


(** ** Exceptions and results *)

(** The subclasses of [requests.exceptions.RequestException] that the
    trigger call can raise: a failure of the connection, the timeout, the
    [HTTPError] of [raise_for_status], and the [JSONDecodeError] that
    [response.json()] raises on a body that is no JSON (a
    [RequestException] since requests 2.27). *)
Inductive request_exception :=
| ConnectionError
| RequestTimeout
| HTTPError (status : Z)
| InvalidJSONError.

(** The exceptions of the program, all subclasses of [Exception]. *)
Inductive exn :=
| IndexError                                  (* a list index out of range *)
| ValueError                                  (* a tuple unpacking of the wrong length *)
| AttributeError                              (* a method the object does not have *)
| ServiceError (reason : string)              (* raised by the Secret Manager client *)
| RequestException (e : request_exception).   (* raised by [requests] *)

Inductive result (A : Type) :=
| Ok (a : A)
| Raise (e : exn).
Arguments Ok {A} a.
Arguments Raise {A} e.

#[global] Instance result_ret : MRet result := λ A a, Ok a.
#[global] Instance result_bind : MBind result := λ A B f r,
  match r with
  | Ok a => f a
  | Raise e => Raise e
  end.

(** [l[i]] for an index [i >= 0]. *)
Definition index {A} (l : list A) (i : nat) : result A :=
  match l !! i with
  | Some x => Ok x
  | None => Raise IndexError
  end.

(** [bool(d)] of a dictionary: the empty dictionary is falsy. *)
Definition dict_truthy {V} (d : gmap string V) : bool :=
  negb (bool_decide (d = ∅)).

(** [d.get(key, default)] *)
Definition dict_get {V} (d : gmap string V) (key : string) (dflt : V) : V :=
  default dflt (d !! key).

(** ** Pure helpers of [main.py] *)

(** The loop of [should_trigger_pipeline] over [required_labels.items()];
    [labels.get(key)] is [None] for an absent key, and [None != value]. *)
Fixpoint labels_match (labels : gmap string string)
    (items : list (string * string)) : bool :=
  match items with
  | [] => true
  | (key, value) :: rest =>
      if match labels !! key with
         | Some x => negb (String.eqb x value)
         | None => true
         end
      then false
      else labels_match labels rest
  end.

Definition should_trigger_pipeline
    (labels required_labels : gmap string string) : bool :=
  if negb (dict_truthy required_labels) then true
  else labels_match labels (map_to_list required_labels).

(** The loop of [parse_required_labels] over [labels_str.split(",")];
    [key, value = pair.split("=", 1)] raises [ValueError] unless the split
    has exactly two pieces. *)
Fixpoint parse_pairs (labels : gmap string string) (pairs : list string)
    : result (gmap string string) :=
  match pairs with
  | [] => Ok labels
  | raw :: rest =>
      let token := Py.strip raw in
      if Py.contains "=" token then
        match Py.splitn 1 "=" token with
        | [key; value] =>
            parse_pairs (<[Py.strip key := Py.strip value]> labels) rest
        | _ => Raise ValueError
        end
      else parse_pairs labels rest
  end.

Definition parse_required_labels (labels_str : string)
    : result (gmap string string) :=
  if negb (Py.truthy labels_str) then Ok ∅
  else parse_pairs ∅ (Py.split "," labels_str).

Definition extract_secret_info (resource_name : string)
    : result (string * string) :=
  let parts := Py.split "/" resource_name in
  project_id ← (if (1 <? length parts)%nat then index parts 1 else Ok "unknown");
  secret_name ← (if (3 <? length parts)%nat then index parts 3 else Ok "unknown");
  Ok (project_id, secret_name).

(** [name.split("/versions/")[0] if "/versions/" in name else name], the
    expression both [get_secret_labels] and the handler use. *)
Definition without_version (name : string) : result string :=
  if Py.contains "/versions/" name
  then index (Py.split "/versions/" name) 0
  else Ok name.

(** The event type the handler derives from the method name; [None] is the
    [else] branch, which returns. *)
Definition event_type_of (method_name : string) : option string :=
  if Py.contains "CreateSecret" method_name then Some "secret_created"
  else if Py.contains "AddSecretVersion" method_name then Some "secret_updated"
  else if Py.contains "DeleteSecret" method_name then Some "secret_deleted"
  else None.

(** ** Effects *)

(** A decoded JSON text, as [response.json()] returns it: [None], a
    [bool], a number, a [str], a [list] or a [dict]. *)
#[warnings="-register-all"]
Inductive json_value :=
| JNull
| JBool (b : bool)
| JNum (n : Z)
| JStr (s : string)
| JArray (items : list json_value)
| JObject (fields : gmap string json_value).

(** The response of [requests.post]: the status, and what the call
    [response.json()] does on its body: it returns the decoded value, or
    raises on a body that is no JSON, [RequestException InvalidJSONError]
    with a current requests and a plain [ValueError] with one before
    2.27. *)
Record response := {
  status_code : Z;
  json : result json_value
}.

(** [value.get(key, default)]: only a [dict] has the method. *)
Definition py_get (value : json_value) (key : string) (dflt : json_value)
    : result json_value :=
  match value with
  | JObject fields => Ok (dict_get fields key dflt)
  | _ => Raise AttributeError
  end.

(** The lines the program prints, one constructor per [print] call, with
    the values its f-string interpolates. *)
Inductive message :=
| MsgReceived (method_name resource_name : string)
| MsgIgnored (method_name : string)
| MsgMissingConfig
| MsgLabelError (secret_name : string) (e : exn)
| MsgNoMatch (secret_name : string) (labels required_labels : gmap string string)
| MsgMatch (secret_name : string) (labels required_labels : gmap string string)
| MsgDeletedNote (secret_name : string)
| MsgTriggered (pipeline_id : json_value)
| MsgPipelineUrl (pipeline_url : json_value)
| MsgSummary (event_type secret_name : string)
| MsgTriggerFailed (e : request_exception).

Inductive effect :=
| Printed (m : message)
| GetSecret (name : string)
| Post (url : string) (data : gmap string string) (timeout : Z).

(** The two remote services.  [get_secret name] is the label map of the
    secret that [secret_client.get_secret(request={"name": name})] returns,
    or the exception it raises; [requests_post url data timeout] is the
    response of [requests.post(url, data=data, timeout=timeout)], or the
    exception it raises. *)
Record World := {
  get_secret : string → result (gmap string string);
  requests_post : string → gmap string string → Z → request_exception + response
}.

(** A computation: the effects it performed, in order, and its result. *)
Definition M (A : Type) : Type := list effect * result A.

#[global] Instance M_ret : MRet M := λ A a, ([], Ok a).
#[global] Instance M_bind : MBind M := λ A B f m,
  match m with
  | (t, Ok a) => let '(t', r) := f a in (t ++ t', r)
  | (t, Raise e) => (t, Raise e)
  end.

Definition emit (e : effect) : M unit := ([e], Ok tt).
Definition print (m : message) : M unit := emit (Printed m).
Definition raise {A} (e : exn) : M A := ([], Raise e).
Definition lift {A} (r : result A) : M A := ([], r).

(** [try: body  except <class> as e: handler e], where [catches] tells
    the exceptions of the class. *)
Definition try_except {A} (body : M A) (catches : exn → bool)
    (handler : exn → M A) : M A :=
  match body with
  | (t, Raise e) =>
      if catches e then let '(t', r) := handler e in (t ++ t', r)
      else (t, Raise e)
  | finished => finished
  end.

(** [except Exception] *)
Definition is_Exception (e : exn) : bool := true.

(** [except requests.exceptions.RequestException] *)
Definition is_RequestException (e : exn) : bool :=
  match e with
  | RequestException _ => true
  | _ => false
  end.

(** [response.raise_for_status()] of [requests]: [HTTPError] for a client
    error (4xx) or a server error (5xx), nothing otherwise. *)
Definition is_error_status (status : Z) : bool :=
  (400 <=? status) && (status <? 600).

Definition raise_for_status (r : response) : M unit :=
  if is_error_status (status_code r)
  then raise (RequestException (HTTPError (status_code r)))
  else mret tt.

(** ** Effectful functions of [main.py] *)

(** The [try] block reassigns [secret_name] before the lookup, and the
    [except] block prints the variable as it is then: the original name
    when the normalisation itself raises, the normalised one after it. *)
Definition get_secret_labels (w : World) (secret_name : string)
    : M (gmap string string) :=
  match without_version secret_name with
  | Raise e => print (MsgLabelError secret_name e);; mret ∅
  | Ok secret_name =>
      try_except
        (emit (GetSecret secret_name);;
         labels ← lift (get_secret w secret_name);
         mret (if dict_truthy labels then labels else ∅))
        is_Exception
        (λ e, print (MsgLabelError secret_name e);; mret ∅)
  end.

Definition variable_field (key : string) : string :=
  "variables[" +:+ key +:+ "]".

(** The request of [trigger_gitlab_pipeline]: its URL and its form, the
    dictionary [data] after the loop over [variables.items()]. *)
Definition trigger_url (gitlab_url project_id : string) : string :=
  gitlab_url +:+ "/api/v4/projects/" +:+ project_id +:+ "/trigger/pipeline".

Definition trigger_data (trigger_token ref : string)
    (variables : option (gmap string string)) : gmap string string :=
  let data : gmap string string := <["ref" := ref]> (<["token" := trigger_token]> ∅) in
  match variables with
  | Some vars =>
      if dict_truthy vars
      then map_fold (λ key value d, <[variable_field key := value]> d) data vars
      else data
  | None => data
  end.

Definition trigger_gitlab_pipeline (w : World)
    (gitlab_url project_id trigger_token ref : string)
    (variables : option (gmap string string))
    : M json_value :=
  let url := trigger_url gitlab_url project_id in
  let data := trigger_data trigger_token ref variables in
  emit (Post url data 30);;
  response ← match requests_post w url data 30 with
             | inl e => raise (RequestException e)
             | inr r => mret r
             end;
  raise_for_status response;;
  lift (json response).

(** The dictionary [pipeline_variables] of the handler. *)
Definition pipeline_variables
    (event_type secret_name resource_name gcp_project_id : string)
    : gmap string string :=
  <["TRIGGERED_BY" := "gcp-secret-manager-webhook"]>
  (<["GCP_PROJECT_ID" := gcp_project_id]>
  (<["SECRET_RESOURCE" := resource_name]>
  (<["SECRET_NAME" := secret_name]>
  (<["SECRET_EVENT_TYPE" := event_type]> ∅)))).

(** The configuration the handler reads from [os.environ], one field per
    local variable, with the defaults of [os.environ.get]. *)
Record config := {
  gcp_project_id : string;
  gitlab_url : string;
  gitlab_project_id : string;
  gitlab_trigger_token : string;
  gitlab_ref : string;
  required_labels_str : string
}.

Definition read_config (environ : gmap string string) : config := {|
  gcp_project_id := dict_get environ "GCP_PROJECT_ID" "";
  gitlab_url := dict_get environ "GITLAB_URL" "https://gitlab.com";
  gitlab_project_id := dict_get environ "GITLAB_PROJECT_ID" "";
  gitlab_trigger_token := dict_get environ "GITLAB_TRIGGER_TOKEN" "";
  gitlab_ref := dict_get environ "GITLAB_REF" "main";
  required_labels_str := dict_get environ "REQUIRED_LABELS" ""
|}.

(** The two fields the handler reads from [cloud_event.data], a mapping
    whose [protoPayload], when present, maps field names to strings. *)
Definition method_name_of (event_data : gmap string (gmap string string)) : string :=
  let proto_payload := dict_get event_data "protoPayload" ∅ in
  dict_get proto_payload "methodName" "".

Definition resource_name_of (event_data : gmap string (gmap string string)) : string :=
  let proto_payload := dict_get event_data "protoPayload" ∅ in
  dict_get proto_payload "resourceName" "".

(** Lines 213-241 of the handler: the variables, the trigger call and its
    [try]/[except]. *)
Definition trigger_stage (w : World) (cfg : config)
    (event_type secret_name resource_name : string) : M unit :=
  try_except
    (result ← trigger_gitlab_pipeline w (gitlab_url cfg) (gitlab_project_id cfg)
                (gitlab_trigger_token cfg) (gitlab_ref cfg)
                (Some (pipeline_variables event_type secret_name
                         resource_name (gcp_project_id cfg)));
     pipeline_id ← lift (py_get result "id" (JStr "unknown"));
     pipeline_url ← lift (py_get result "web_url" (JStr "N/A"));
     print (MsgTriggered pipeline_id);;
     print (MsgPipelineUrl pipeline_url);;
     print (MsgSummary event_type secret_name))
    is_RequestException
    (λ e, match e with
          | RequestException r => print (MsgTriggerFailed r);; raise e
          | _ => raise e
          end).

(** Lines 201-241 of the handler: the label check, whose first branch
    returns on a mismatch, then the trigger. *)
Definition label_stage (w : World) (cfg : config)
    (required_labels : gmap string string)
    (event_type secret_name secret_path resource_name : string) : M unit :=
  let go := trigger_stage w cfg event_type secret_name resource_name in
  if negb (String.eqb event_type "secret_deleted") && dict_truthy required_labels
  then
    labels ← get_secret_labels w secret_path;
    if negb (should_trigger_pipeline labels required_labels)
    then print (MsgNoMatch secret_name labels required_labels)
    else print (MsgMatch secret_name labels required_labels);; go
  else if String.eqb event_type "secret_deleted" && dict_truthy required_labels
  then print (MsgDeletedNote secret_name);; go
  else go.

(** [handle_secret_event]; [environ] is [os.environ] and [event_data] is
    [cloud_event.data]. *)
Definition handle_secret_event (w : World) (environ : gmap string string)
    (event_data : gmap string (gmap string string)) : M unit :=
  let method_name := method_name_of event_data in
  let resource_name := resource_name_of event_data in
  print (MsgReceived method_name resource_name);;
  match event_type_of method_name with
  | None => print (MsgIgnored method_name)
  | Some event_type =>
      let cfg := read_config environ in
      if negb (Py.truthy (gitlab_project_id cfg))
         || negb (Py.truthy (gitlab_trigger_token cfg))
      then print MsgMissingConfig
      else
        required_labels ← lift (parse_required_labels (required_labels_str cfg));
        '(_, secret_name) ← lift (extract_secret_info resource_name);
        secret_path ← lift (without_version resource_name);
        label_stage w cfg required_labels event_type secret_name secret_path
          resource_name
  end.

(** ** Observations on a trace *)

Definition trace {A} (m : M A) : list effect := fst m.
Definition outcome {A} (m : M A) : result A := snd m.

Definition is_Post (e : effect) : bool :=
  match e with Post _ _ _ => true | _ => false end.
Definition is_GetSecret (e : effect) : bool :=
  match e with GetSecret _ => true | _ => false end.

(** The outbound trigger calls and the label lookups of a trace. *)
Definition posts (t : list effect) : list effect := List.filter is_Post t.
Definition lookups (t : list effect) : list effect := List.filter is_GetSecret t.

(** The request the trigger stage sends: what [trigger_gitlab_pipeline]
    builds from the arguments the handler passes. *)
Definition stage_url (cfg : config) : string :=
  trigger_url (gitlab_url cfg) (gitlab_project_id cfg).

Definition stage_data (cfg : config)
    (event_type secret_name resource_name : string) : gmap string string :=
  trigger_data (gitlab_trigger_token cfg) (gitlab_ref cfg)
    (Some (pipeline_variables event_type secret_name resource_name
             (gcp_project_id cfg))).

Definition stage_post (cfg : config)
    (event_type secret_name resource_name : string) : effect :=
  Post (stage_url cfg) (stage_data cfg event_type secret_name resource_name) 30.

(** The version-free path, as a total function: the text before the
    leftmost ["/versions/"], or the whole path when there is none.  Lemma
    [without_version_ok] shows that [without_version] computes it. *)
Definition strip_version (name : string) : string :=
  match Py.cut "/versions/" name with
  | Some (before, _) => before
  | None => name
  end.

(** The handler reached the outbound trigger call. *)
Definition reaches_trigger {A} (m : M A) : bool := existsb is_Post (trace m).





(** ** Shapes of strings *)

(** The first, respectively the last, character is white space. *)
Definition starts_with_space (s : string) : bool :=
  match s with
  | EmptyString => false
  | String c _ => Py.isspace c
  end.

Fixpoint ends_with_space (s : string) : bool :=
  match s with
  | EmptyString => false
  | String c EmptyString => Py.isspace c
  | String _ s' => ends_with_space s'
  end.

(** No white space at either end. *)
Definition trimmed (s : string) : bool :=
  negb (starts_with_space s) && negb (ends_with_space s).

(** ** More observations *)

(** The handler queried the Secret Manager. *)
Definition queries_labels {A} (m : M A) : bool := existsb is_GetSecret (trace m).

(** The labels the Secret Manager holds for [path], empty when the lookup
    raises. *)
Definition labels_or_empty (w : World) (path : string) : gmap string string :=
  match get_secret w path with
  | Ok labels => labels
  | Raise _ => ∅
  end.

(** ** Sample inputs *)

(** The audit-log payload of a call of [method_name] on [resource_name]. *)
Definition audit_event (method_name resource_name : string)
    : gmap string (gmap string string) :=
  {[ "protoPayload" :=
       {[ "methodName" := method_name; "resourceName" := resource_name ]} ]}.

(** A complete configuration with the filter [env=prod]. *)
Definition sample_environ : gmap string string :=
  {[ "GITLAB_PROJECT_ID" := "7"; "GITLAB_TRIGGER_TOKEN" := "glptt-0";
     "REQUIRED_LABELS" := "env=prod" ]}.

(** A world with one secret, [projects/p/secrets/s], labelled [env=prod],
    whose CI system answers every call with [status] and the JSON object
    [body]. *)
Definition answering (status : Z) (body : gmap string json_value) : World := {|
  get_secret name :=
    if String.eqb name "projects/p/secrets/s"
    then Ok {[ "env" := "prod" ]}
    else Raise (ServiceError "NotFound");
  requests_post _ _ _ := inr {| status_code := status; json := Ok (JObject body) |}
|}.


(** A world in which both services fail. *)
Definition unreachable : World := {|
  get_secret _ := Raise (ServiceError "Unavailable");
  requests_post _ _ _ := inl ConnectionError
|}.

(** * Facts about the string primitives *)

Section string_facts.
Implicit Types (s p sep sub a b : string) (c : ascii).

Lemma app_nil_r s : s +:+ "" = s.
Proof. induction s as [|c s IH]; simpl; [done | by f_equal]. Qed.

Lemma app_assoc a b s : (a +:+ b) +:+ s = a +:+ b +:+ s.
Proof. induction a as [|c a IH]; simpl; [done | by f_equal]. Qed.

Lemma app_length a b :
  String.length (a +:+ b) = (String.length a + String.length b)%nat.
Proof. induction a as [|c a IH]; simpl; [done | by f_equal]. Qed.

Lemma startswith_spec p s :
  Py.startswith p s = true ↔ ∃ r, s = p +:+ r.
Proof.
  revert s. induction p as [|c p IH]; intros s; simpl.
  - split; [intros _; by exists s | done].
  - destruct s as [|d s].
    + split; [done | intros [r Hr]; discriminate].
    + destruct (Ascii.eqb_spec c d) as [->|Hne].
      * rewrite IH. split; intros [r Hr]; exists r; simpl in *; congruence.
      * split; [done | intros [r Hr]; simpl in Hr; congruence].
Qed.

Lemma startswith_app p r : Py.startswith p (p +:+ r) = true.
Proof. apply startswith_spec. by exists r. Qed.

(** [sub in s] holds exactly when [s] is some text, [sub], some text. *)
Lemma contains_spec sub s :
  Py.contains sub s = true ↔ ∃ a b, s = a +:+ sub +:+ b.
Proof.
  induction s as [|c s IH]; simpl.
  - rewrite orb_false_r, startswith_spec. split.
    + intros [r Hr]. by exists "", r.
    + intros (a & b & Hab). destruct a; simpl in Hab; [by exists b|discriminate].
  - rewrite orb_true_iff, startswith_spec, IH. split.
    + intros [[r Hr]|(a & b & Hab)].
      * by exists "", r.
      * exists (String c a), b. simpl. by rewrite Hab.
    + intros (a & b & Hab). destruct a as [|d a]; simpl in Hab.
      * left. by exists b.
      * right. exists a, b. congruence.
Qed.

Lemma contains_app sub a b : Py.contains sub (a +:+ sub +:+ b) = true.
Proof. apply contains_spec. by exists a, b. Qed.

Lemma contains_false_tail sub c s :
  Py.contains sub (String c s) = false → Py.contains sub s = false.
Proof. simpl. by intros [_ ?]%orb_false_iff. Qed.

(** A text that contains [sub] still does after more text is added. *)
Lemma contains_app_l sub a b :
  Py.contains sub a = true → Py.contains sub (a +:+ b) = true.
Proof.
  rewrite !contains_spec. intros (x & y & ->). exists x, (y +:+ b).
  by rewrite !app_assoc.
Qed.

Lemma contains_app_r sub a b :
  Py.contains sub b = true → Py.contains sub (a +:+ b) = true.
Proof.
  rewrite !contains_spec. intros (x & y & ->). exists (a +:+ x), y.
  by rewrite !app_assoc.
Qed.

Lemma drop_app p r : Py.drop (String.length p) (p +:+ r) = r.
Proof. induction p as [|c p IH]; simpl; [by destruct r | done]. Qed.

Lemma drop_length n s : (String.length (Py.drop n s) ≤ String.length s)%nat.
Proof.
  revert s. induction n as [|n IH]; intros [|c s]; simpl; try lia.
  specialize (IH s). lia.
Qed.

(** [cut] fails exactly when the separator does not occur. *)
Lemma cut_None sep s : Py.cut sep s = None ↔ Py.contains sep s = false.
Proof.
  induction s as [|c s IH]; simpl.
  - destruct (Py.startswith sep ""); simpl; split; done.
  - destruct (Py.startswith sep (String c s)); simpl; [split; done|].
    rewrite <- IH. destruct (Py.cut sep s) as [[??]|]; split; done.
Qed.

Lemma cut_is_Some sep s :
  Py.contains sep s = true → ∃ before after, Py.cut sep s = Some (before, after).
Proof.
  intros H. destruct (Py.cut sep s) as [[x y]|] eqn:E; [by exists x, y|].
  apply cut_None in E. congruence.
Qed.

Lemma startswith_drop sep s :
  Py.startswith sep s = true → s = sep +:+ Py.drop (String.length sep) s.
Proof.
  intros [r ->]%startswith_spec. by rewrite drop_app.
Qed.

(** [cut] splits the text around an occurrence of the separator... *)
Lemma cut_Some sep s before after :
  Py.cut sep s = Some (before, after) → s = before +:+ sep +:+ after.
Proof.
  revert before. induction s as [|c s IH]; intros before; simpl.
  - destruct (Py.startswith sep "") eqn:E; [|done].
    intros [= <- <-]. by apply startswith_drop in E.
  - destruct (Py.startswith sep (String c s)) eqn:E.
    + intros [= <- <-]. by apply startswith_drop in E.
    + destruct (Py.cut sep s) as [[x y]|] eqn:E'; [|done].
      intros [= <- <-]. simpl. f_equal. by apply IH.
Qed.

(** ... the leftmost one: no occurrence starts earlier. *)
Lemma cut_leftmost sep s before after a b :
  Py.cut sep s = Some (before, after) → s = a +:+ sep +:+ b →
  (String.length before ≤ String.length a)%nat.
Proof.
  revert before a. induction s as [|c s IH]; intros before a; simpl.
  - destruct (Py.startswith sep ""); [|done]. intros [= <- <-] _. simpl. lia.
  - destruct (Py.startswith sep (String c s)) eqn:E.
    + intros [= <- <-] _. simpl. lia.
    + destruct (Py.cut sep s) as [[x y]|] eqn:E'; [|done].
      intros [= <- <-] Hs. destruct a as [|d a]; simpl in Hs.
      * rewrite Hs, startswith_app in E. done.
      * injection Hs as -> ->. simpl. specialize (IH x a eq_refl eq_refl). lia.
Qed.

(** The text before the cut contains no separator (for a real one). *)
Lemma cut_before_free sep s before after :
  sep ≠ "" → Py.cut sep s = Some (before, after) →
  Py.contains sep before = false.
Proof.
  intros Hsep. revert before. induction s as [|c s IH]; intros before; simpl.
  - destruct (Py.startswith sep ""); [|done]. intros [= <- <-].
    simpl. destruct sep; done.
  - destruct (Py.startswith sep (String c s)) eqn:E.
    + intros [= <- <-]. simpl. destruct sep; done.
    + destruct (Py.cut sep s) as [[x y]|] eqn:E'; [|done].
      intros [= <- <-]. simpl. rewrite (IH x eq_refl), orb_false_r.
      apply not_true_is_false. intros [r Hr]%startswith_spec.
      apply cut_Some in E'. apply not_true_iff_false in E. apply E.
      apply startswith_spec. exists (r +:+ sep +:+ y).
      rewrite E'. change (String c (x +:+ sep +:+ y)) with (String c x +:+ sep +:+ y).
      rewrite Hr. apply app_assoc.
Qed.

Lemma cut_after_shorter sep s before after :
  sep ≠ "" → Py.cut sep s = Some (before, after) →
  (String.length after < String.length s)%nat.
Proof.
  intros Hsep H%cut_Some. subst s. rewrite !app_length.
  destruct sep; [done|]. simpl. lia.
Qed.

(** A one-character separator is cut where it first stands. *)
Lemma cut_char c a b :
  Py.contains (String c "") a = false →
  Py.cut (String c "") (a +:+ String c b) = Some (a, b).
Proof.
  induction a as [|d a IH]; simpl.
  - intros _. rewrite Ascii.eqb_refl. done.
  - destruct (Ascii.eqb c d); simpl; [done|].
    intros H. rewrite IH; [done|]. by destruct a.
Qed.

(** Fuel: once [maxsplit] reaches the length of the text, more changes
    nothing, so [split] performs every cut there is. *)
Lemma splitn_stable sep n m s :
  sep ≠ "" → (String.length s ≤ n)%nat → (String.length s ≤ m)%nat →
  Py.splitn n sep s = Py.splitn m sep s.
Proof.
  intros Hsep. revert m s. induction n as [|n IH]; intros m s Hn Hm.
  - destruct s; [|simpl in Hn; lia].
    destruct m; simpl; [done|]. by destruct sep.
  - simpl. destruct (Py.cut sep s) as [[x y]|] eqn:E.
    + pose proof (cut_after_shorter _ _ _ _ Hsep E).
      destruct m as [|m]; [lia|]. simpl. rewrite E. f_equal. apply IH; lia.
    + destruct m; simpl; [done|]. by rewrite E.
Qed.

Lemma splitn_enough sep n s :
  sep ≠ "" → (String.length s ≤ n)%nat → Py.splitn n sep s = Py.split sep s.
Proof. intros. by apply splitn_stable. Qed.

Lemma splitn_nonempty n sep s : ∃ x l, Py.splitn n sep s = x :: l.
Proof.
  destruct n; simpl; [by eexists _, _|].
  destruct (Py.cut sep s) as [[??]|]; by eexists _, _.
Qed.

Lemma split_no_sep sep s : Py.contains sep s = false → Py.split sep s = [s].
Proof.
  intros H%cut_None. unfold Py.split.
  destruct (String.length s); simpl; [done|]. by rewrite H.
Qed.

Lemma split_cut sep s before after :
  sep ≠ "" → Py.cut sep s = Some (before, after) →
  Py.split sep s = before :: Py.split sep after.
Proof.
  intros Hsep E. pose proof (cut_after_shorter _ _ _ _ Hsep E).
  unfold Py.split at 1. destruct (String.length s) as [|n] eqn:El; [lia|].
  simpl. rewrite E. f_equal. apply splitn_enough; [done | lia].
Qed.

Lemma char_ne_empty c : String c "" ≠ "".
Proof. done. Qed.

Lemma split_char_app c a b :
  Py.contains (String c "") a = false →
  Py.split (String c "") (a +:+ String c b) = a :: Py.split (String c "") b.
Proof. intros H. apply split_cut; [done | by apply cut_char]. Qed.


(** A last piece without separator is the last element of the split. *)
Lemma split_char_snoc c s t :
  Py.contains (String c "") t = false →
  Py.split (String c "") (s +:+ String c t) = Py.split (String c "") s ++ [t].
Proof.
  intros Ht. remember (String.length s) as n eqn:En.
  revert s En. induction (lt_wf n) as [n _ IH]. intros s ->.
  destruct (Py.cut (String c "") s) as [[x y]|] eqn:E.
  - pose proof (cut_after_shorter _ _ _ _ (char_ne_empty c) E) as Hlt.
    pose proof (cut_before_free _ _ _ _ (char_ne_empty c) E) as Hx.
    rewrite (split_cut _ _ _ _ (char_ne_empty c) E).
    apply cut_Some in E. subst s. rewrite app_assoc. simpl.
    rewrite split_char_app by done. simpl. f_equal.
    by apply (IH _ Hlt).
  - apply cut_None in E. rewrite split_char_app, !split_no_sep by done. done.
Qed.

(** *** [strip] *)

Lemma lstrip_idemp s : Py.lstrip (Py.lstrip s) = Py.lstrip s.
Proof.
  induction s as [|c s IH]; simpl; [done|].
  destruct (Py.isspace c) eqn:E; [done|]. simpl. by rewrite E.
Qed.

Lemma rstrip_idemp s : Py.rstrip (Py.rstrip s) = Py.rstrip s.
Proof.
  induction s as [|c s IH]; simpl; [done|].
  destruct (Py.rstrip s) as [|d r] eqn:E.
  - destruct (Py.isspace c) eqn:Ec; simpl; [done|]. by rewrite Ec.
  - remember (String d r) as x. simpl. rewrite IH. by subst x.
Qed.

Lemma lstrip_rstrip s : Py.lstrip (Py.rstrip s) = Py.rstrip (Py.lstrip s).
Proof.
  induction s as [|c s IH]; simpl; [done|].
  destruct (Py.isspace c) eqn:Ec.
  - destruct (Py.rstrip s) as [|d r] eqn:E; simpl.
    + by rewrite <- IH.
    + rewrite Ec. by rewrite <- IH.
  - simpl. destruct (Py.rstrip s) as [|d r] eqn:E; simpl; by rewrite Ec.
Qed.

Lemma strip_lstrip s : Py.strip (Py.lstrip s) = Py.strip s.
Proof. unfold Py.strip. by rewrite lstrip_idemp. Qed.

Lemma strip_rstrip s : Py.strip (Py.rstrip s) = Py.strip s.
Proof. unfold Py.strip. by rewrite lstrip_rstrip, rstrip_idemp. Qed.

Lemma strip_idemp s : Py.strip (Py.strip s) = Py.strip s.
Proof. unfold Py.strip at 2. by rewrite strip_rstrip, strip_lstrip. Qed.

(** Stripping reaches across nothing that is not white space: around a
    character [c] that is none, the left part is stripped on the left
    and the right part on the right. *)
Lemma lstrip_app_char c a b :
  Py.isspace c = false →
  Py.lstrip (a +:+ String c b) = Py.lstrip a +:+ String c b.
Proof.
  intros Hc. induction a as [|d a IH]; simpl; [by rewrite Hc|].
  by destruct (Py.isspace d).
Qed.

Lemma rstrip_char c b :
  Py.isspace c = false → Py.rstrip (String c b) = String c (Py.rstrip b).
Proof. intros Hc. simpl. destruct (Py.rstrip b); [by rewrite Hc | done]. Qed.

Lemma rstrip_app_char c a b :
  Py.isspace c = false →
  Py.rstrip (a +:+ String c b) = a +:+ String c (Py.rstrip b).
Proof.
  intros Hc. induction a as [|d a IH].
  - by apply rstrip_char.
  - change (String d a +:+ String c b) with (String d (a +:+ String c b)).
    cbn [Py.rstrip]. rewrite IH. by destruct a.
Qed.

Lemma strip_app_char c a b :
  Py.isspace c = false →
  Py.strip (a +:+ String c b) = Py.lstrip a +:+ String c (Py.rstrip b).
Proof.
  intros Hc. unfold Py.strip. by rewrite lstrip_app_char, rstrip_app_char.
Qed.

(** [lstrip] keeps a suffix of the text. *)
Lemma lstrip_suffix s : ∃ ws, s = ws +:+ Py.lstrip s.
Proof.
  induction s as [|c s [ws IH]]; simpl; [by exists ""|].
  destruct (Py.isspace c); [|by exists ""].
  exists (String c ws). simpl. by f_equal.
Qed.

Lemma lstrip_free sub s :
  Py.contains sub s = false → Py.contains sub (Py.lstrip s) = false.
Proof.
  intros H. apply not_true_is_false. intros H'.
  destruct (lstrip_suffix s) as [ws Hws]. rewrite Hws in H.
  by rewrite contains_app_r in H.
Qed.

End string_facts.

(** * Facts about the pure helpers *)

Section helper_facts.
Implicit Types (labels required : gmap string string) (s t k v : string).

Lemma dict_truthy_empty {V} : dict_truthy (∅ : gmap string V) = false.
Proof. unfold dict_truthy. by rewrite bool_decide_eq_true_2. Qed.

Lemma dict_truthy_true {V} (d : gmap string V) : dict_truthy d = true ↔ d ≠ ∅.
Proof.
  unfold dict_truthy. rewrite negb_true_iff, bool_decide_eq_false. done.
Qed.

Lemma dict_truthy_false {V} (d : gmap string V) : dict_truthy d = false ↔ d = ∅.
Proof.
  unfold dict_truthy. rewrite negb_false_iff, bool_decide_eq_true. done.
Qed.

Lemma truthy_false s : Py.truthy s = false ↔ s = "".
Proof. destruct s; simpl; split; done. Qed.

(** The loop accepts exactly when every item is a label of the secret. *)
Lemma labels_match_spec labels (items : list (string * string)) :
  labels_match labels items = true ↔
  ∀ key value, (key, value) ∈ items → labels !! key = Some value.
Proof.
  induction items as [|[k v] items IH]; simpl.
  - split; [intros _ ?? H; by apply elem_of_nil in H | done].
  - destruct (labels !! k) as [x|] eqn:E.
    + destruct (String.eqb_spec x v) as [->|Hne]; simpl.
      * rewrite IH. split.
        -- intros H key value [[= -> ->]|?]%elem_of_cons; [done | by apply H].
        -- intros H key value ?. apply H. by right.
      * split; [done|]. intros H.
        specialize (H k v (list_elem_of_here _ _)). congruence.
    + split; [done|]. intros H.
      specialize (H k v (list_elem_of_here _ _)). congruence.
Qed.

Lemma should_trigger_spec labels required :
  should_trigger_pipeline labels required = true ↔
  ∀ key value, required !! key = Some value → labels !! key = Some value.
Proof.
  unfold should_trigger_pipeline.
  destruct (dict_truthy required) eqn:E; simpl.
  - rewrite labels_match_spec. split; intros H key value Hk; apply H.
    + by apply elem_of_map_to_list.
    + by apply elem_of_map_to_list in Hk.
  - apply dict_truthy_false in E as ->. split; [|done].
    intros _ key value. by rewrite lookup_empty.
Qed.

Lemma should_trigger_no_labels required :
  required ≠ ∅ → should_trigger_pipeline ∅ required = false.
Proof.
  intros Hne. apply not_true_is_false. rewrite should_trigger_spec. intros H.
  apply Hne, map_empty. intros key.
  destruct (required !! key) as [value|] eqn:E; [|done].
  apply H in E. by rewrite lookup_empty in E.
Qed.

(** *** [parse_required_labels] *)

Lemma contains_char_app c a b :
  Py.contains (String c "") (a +:+ b) =
  Py.contains (String c "") a || Py.contains (String c "") b.
Proof.
  induction a as [|d a IH]; simpl.
  - done.
  - destruct (Ascii.eqb c d); simpl; [done|].
    apply IH.
Qed.

Lemma rstrip_prefix s : ∃ ws, s = Py.rstrip s +:+ ws.
Proof.
  induction s as [|c s [ws IH]]; simpl; [by exists ""|].
  destruct (Py.rstrip s) as [|d r] eqn:E.
  - destruct (Py.isspace c).
    + exists (String c ws). simpl in IH. by rewrite <- IH.
    + exists ws. simpl in *. by f_equal.
  - exists ws. simpl. f_equal. done.
Qed.

Lemma rstrip_free sub s :
  Py.contains sub s = false → Py.contains sub (Py.rstrip s) = false.
Proof.
  intros H. apply not_true_is_false. intros H'.
  destruct (rstrip_prefix s) as [ws Hws]. rewrite Hws in H.
  by rewrite contains_app_l in H.
Qed.

Lemma strip_free sub s :
  Py.contains sub s = false → Py.contains sub (Py.strip s) = false.
Proof. intros H. by apply rstrip_free, lstrip_free. Qed.

Lemma parse_pairs_app labels (l1 l2 : list string) :
  parse_pairs labels (l1 ++ l2) =
  parse_pairs labels l1 ≫= λ labels', parse_pairs labels' l2.
Proof.
  revert labels. induction l1 as [|raw l1 IH]; intros labels; simpl; [done|].
  destruct (Py.contains "=" (Py.strip raw)); [|apply IH].
  destruct (Py.cut "=" (Py.strip raw)) as [[key value]|]; [apply IH | done].
Qed.

(** A token without ['='] leaves the labels as they are. *)
Lemma parse_pairs_skip labels t :
  Py.contains "=" t = false → parse_pairs labels [t] = Ok labels.
Proof. intros H. simpl. by rewrite strip_free. Qed.

(** A token [k=v] sets the label [k.strip()] to [v.strip()]; the key ends
    at the first ['=']. *)
Lemma parse_pairs_set labels k v :
  Py.contains "=" k = false →
  parse_pairs labels [k +:+ "=" +:+ v] =
  Ok (<[Py.strip k := Py.strip v]> labels).
Proof.
  intros Hk. cbn [parse_pairs].
  change (k +:+ "=" +:+ v) with (k +:+ String "=" v).
  rewrite strip_app_char by done.
  change (Py.lstrip k +:+ String "=" (Py.rstrip v))
    with (Py.lstrip k +:+ "=" +:+ Py.rstrip v).
  rewrite contains_app. cbn [Py.splitn].
  change (Py.lstrip k +:+ "=" +:+ Py.rstrip v)
    with (Py.lstrip k +:+ String "=" (Py.rstrip v)).
  rewrite cut_char by by apply lstrip_free.
  by rewrite strip_lstrip, strip_rstrip.
Qed.

(** The unpacking [key, value = pair.split("=", 1)] never fails behind
    the guard ["=" in pair]. *)
Lemma parse_pairs_ok labels (pairs : list string) :
  ∃ parsed, parse_pairs labels pairs = Ok parsed.
Proof.
  revert labels. induction pairs as [|raw pairs IH]; intros labels; simpl.
  - by eexists.
  - destruct (Py.contains "=" (Py.strip raw)) eqn:E; [|apply IH].
    apply cut_is_Some in E as (x & y & ->). apply IH.
Qed.

Lemma parse_required_labels_pairs s :
  parse_required_labels s = parse_pairs ∅ (Py.split "," s).
Proof. by destruct s. Qed.

Lemma parse_required_labels_ok s : ∃ parsed, parse_required_labels s = Ok parsed.
Proof. rewrite parse_required_labels_pairs. apply parse_pairs_ok. Qed.

Lemma parse_required_labels_snoc s t parsed :
  parse_required_labels s = Ok parsed → Py.contains "," t = false →
  parse_required_labels (s +:+ "," +:+ t) = parse_pairs parsed [t].
Proof.
  rewrite !parse_required_labels_pairs. intros Hs Ht.
  change (s +:+ "," +:+ t) with (s +:+ String "," t).
  rewrite split_char_snoc by done. rewrite parse_pairs_app, Hs. done.
Qed.

(** *** [extract_secret_info] and [without_version] *)

Lemma index_lt {A} (l : list A) i :
  (i <? length l)%nat = true → ∃ x, l !! i = Some x ∧ index l i = Ok x.
Proof.
  intros H%Nat.ltb_lt. destruct (lookup_lt_is_Some_2 l i H) as [x Hx].
  exists x. unfold index. by rewrite Hx.
Qed.

Lemma extract_secret_info_ok s :
  extract_secret_info s =
  Ok (default "unknown" (Py.split "/" s !! 1%nat),
      default "unknown" (Py.split "/" s !! 3%nat)).
Proof.
  unfold extract_secret_info. set (parts := Py.split "/" s).
  destruct (1 <? length parts)%nat eqn:E1.
  - destruct (index_lt _ _ E1) as (x & -> & ->); simpl.
    destruct (3 <? length parts)%nat eqn:E3.
    + by destruct (index_lt _ _ E3) as (y & -> & ->).
    + apply Nat.ltb_ge in E3. by rewrite (lookup_ge_None_2 _ _ E3).
  - apply Nat.ltb_ge in E1. rewrite (lookup_ge_None_2 _ _ E1); simpl.
    destruct (3 <? length parts)%nat eqn:E3.
    + apply Nat.ltb_lt in E3. lia.
    + apply Nat.ltb_ge in E3. by rewrite (lookup_ge_None_2 _ _ E3).
Qed.

Lemma versions_ne_empty : "/versions/" ≠ "".
Proof. done. Qed.

Lemma without_version_ok s : without_version s = Ok (strip_version s).
Proof.
  unfold without_version, strip_version.
  destruct (Py.contains "/versions/" s) eqn:E.
  - destruct (cut_is_Some _ _ E) as (x & y & Hc). rewrite Hc.
    by rewrite (split_cut _ _ _ _ versions_ne_empty Hc).
  - apply cut_None in E. by rewrite E.
Qed.

Lemma strip_version_free s : Py.contains "/versions/" (strip_version s) = false.
Proof.
  unfold strip_version. destruct (Py.cut "/versions/" s) as [[x y]|] eqn:E.
  - by apply (cut_before_free _ _ _ _ versions_ne_empty E).
  - by apply cut_None.
Qed.

Lemma strip_version_idemp s : strip_version (strip_version s) = strip_version s.
Proof.
  pose proof (strip_version_free s) as H%cut_None.
  unfold strip_version at 1. by rewrite H.
Qed.

End helper_facts.

(** * Facts about the effectful functions *)

Section effect_facts.
Context (w : World).
Implicit Types (cfg : config) (environ : gmap string string)
  (event_data : gmap string (gmap string string))
  (required : gmap string string).

(** One lookup, of the version-free name; a failure is printed and
    becomes the empty dictionary. *)
Lemma get_secret_labels_run name :
  get_secret_labels w name =
  match get_secret w (strip_version name) with
  | Ok labels => ([GetSecret (strip_version name)], Ok labels)
  | Raise e =>
      ([GetSecret (strip_version name);
        Printed (MsgLabelError (strip_version name) e)], Ok ∅)
  end.
Proof.
  unfold get_secret_labels. rewrite without_version_ok.
  destruct (get_secret w (strip_version name)) as [labels|e] eqn:E; simpl;
    [|done].
  destruct (dict_truthy labels) eqn:Et; [done|].
  by apply dict_truthy_false in Et as ->.
Qed.

(** The trigger stage, by the answer of the CI system. *)
Lemma trigger_stage_run cfg event_type secret_name resource_name :
  trigger_stage w cfg event_type secret_name resource_name =
  match requests_post w (stage_url cfg)
          (stage_data cfg event_type secret_name resource_name) 30 with
  | inl e =>
      ([stage_post cfg event_type secret_name resource_name;
        Printed (MsgTriggerFailed e)], Raise (RequestException e))
  | inr r =>
      if is_error_status (status_code r)
      then ([stage_post cfg event_type secret_name resource_name;
             Printed (MsgTriggerFailed (HTTPError (status_code r)))],
            Raise (RequestException (HTTPError (status_code r))))
      else
        match json r with
        | Raise (RequestException e) =>
            ([stage_post cfg event_type secret_name resource_name;
              Printed (MsgTriggerFailed e)], Raise (RequestException e))
        | Raise e =>
            ([stage_post cfg event_type secret_name resource_name], Raise e)
        | Ok (JObject fields) =>
            ([stage_post cfg event_type secret_name resource_name;
              Printed (MsgTriggered (dict_get fields "id" (JStr "unknown")));
              Printed (MsgPipelineUrl (dict_get fields "web_url" (JStr "N/A")));
              Printed (MsgSummary event_type secret_name)], Ok tt)
        | Ok _ =>
            ([stage_post cfg event_type secret_name resource_name],
             Raise AttributeError)
        end
  end.
Proof.
  unfold trigger_stage, trigger_gitlab_pipeline, stage_post, stage_url,
    stage_data, raise_for_status.
  destruct (requests_post _ _ _ _) as [e|r]; [done|].
  simpl. destruct (is_error_status (status_code r)); [done|]. simpl.
  destruct (json r) as [[| | | | |fields]|[| | | |e]]; done.
Qed.

Lemma trigger_stage_trace cfg event_type secret_name resource_name :
  ∃ prints,
    trace (trigger_stage w cfg event_type secret_name resource_name) =
    stage_post cfg event_type secret_name resource_name :: prints ∧
    posts prints = [] ∧ lookups prints = [].
Proof.
  rewrite trigger_stage_run.
  destruct (requests_post _ _ _ _) as [e|r];
    [|destruct (is_error_status (status_code r));
      [|destruct (json r) as [[| | | | |fields]|[| | | |e]]]]; by eexists.
Qed.

(** The label stage of a deletion: no lookup, the note when a filter is
    set, then the trigger. *)
Lemma label_stage_deleted cfg required secret_name secret_path resource_name :
  let go := trigger_stage w cfg "secret_deleted" secret_name resource_name in
  label_stage w cfg required "secret_deleted" secret_name secret_path
    resource_name =
  ((if dict_truthy required then [Printed (MsgDeletedNote secret_name)] else [])
     ++ trace go, outcome go).
Proof.
  intros go. unfold label_stage. fold go. simpl.
  destruct (dict_truthy required); simpl; by destruct go.
Qed.

(** Without a filter the label stage is the trigger alone. *)
Lemma label_stage_no_filter cfg event_type secret_name secret_path resource_name :
  label_stage w cfg ∅ event_type secret_name secret_path resource_name =
  trigger_stage w cfg event_type secret_name resource_name.
Proof.
  unfold label_stage. rewrite (@dict_truthy_empty string).
  by destruct (String.eqb event_type "secret_deleted").
Qed.

(** With a filter, an event that is no deletion looks the labels up and
    triggers only on a match. *)
Lemma label_stage_checked cfg required event_type secret_name secret_path
    resource_name :
  event_type ≠ "secret_deleted" → required ≠ ∅ →
  let go := trigger_stage w cfg event_type secret_name resource_name in
  let fetched := get_secret_labels w secret_path in
  ∃ labels,
    outcome fetched = Ok labels ∧
    label_stage w cfg required event_type secret_name secret_path
      resource_name =
    if should_trigger_pipeline labels required
    then (trace fetched ++ Printed (MsgMatch secret_name labels required)
            :: trace go, outcome go)
    else (trace fetched ++ [Printed (MsgNoMatch secret_name labels required)],
          Ok tt).
Proof.
  intros Het Hreq go fetched. unfold label_stage. fold go fetched.
  apply String.eqb_neq in Het. apply dict_truthy_true in Hreq.
  rewrite Het, Hreq. simpl. subst fetched.
  rewrite get_secret_labels_run.
  destruct (get_secret w (strip_version secret_path)) as [labels|e].
  - exists labels. split; [done|]. simpl.
    destruct (should_trigger_pipeline labels required); simpl; [|done].
    by destruct go.
  - exists ∅. split; [done|]. simpl.
    destruct (should_trigger_pipeline ∅ required); simpl; [|done].
    by destruct go.
Qed.


(** *** The handler, branch by branch *)

Lemma handle_unhandled environ event_data :
  event_type_of (method_name_of event_data) = None →
  handle_secret_event w environ event_data =
  ([Printed (MsgReceived (method_name_of event_data) (resource_name_of event_data));
    Printed (MsgIgnored (method_name_of event_data))], Ok tt).
Proof. intros H. unfold handle_secret_event. by rewrite H. Qed.

Lemma handle_missing_config environ event_data event_type :
  event_type_of (method_name_of event_data) = Some event_type →
  gitlab_project_id (read_config environ) = "" ∨
  gitlab_trigger_token (read_config environ) = "" →
  handle_secret_event w environ event_data =
  ([Printed (MsgReceived (method_name_of event_data) (resource_name_of event_data));
    Printed MsgMissingConfig], Ok tt).
Proof.
  intros H Hcfg. unfold handle_secret_event. rewrite H.
  destruct Hcfg as [-> | ->]; simpl; [done|].
  by rewrite orb_true_r.
Qed.

Lemma handle_configured environ event_data event_type required :
  event_type_of (method_name_of event_data) = Some event_type →
  gitlab_project_id (read_config environ) ≠ "" →
  gitlab_trigger_token (read_config environ) ≠ "" →
  parse_required_labels (required_labels_str (read_config environ)) = Ok required →
  let resource_name := resource_name_of event_data in
  let stage :=
    label_stage w (read_config environ) required event_type
      (default "unknown" (Py.split "/" resource_name !! 3%nat))
      (strip_version resource_name) resource_name in
  handle_secret_event w environ event_data =
  (Printed (MsgReceived (method_name_of event_data) resource_name) :: trace stage,
   outcome stage).
Proof.
  intros H Hp Ht Hreq resource_name stage. unfold handle_secret_event.
  rewrite H. fold resource_name.
  destruct (gitlab_project_id (read_config environ)); [done|].
  destruct (gitlab_trigger_token (read_config environ)); [done|].
  rewrite Hreq, extract_secret_info_ok, without_version_ok. simpl.
  fold stage. by destruct stage.
Qed.

Lemma truthy_true s : Py.truthy s = true ↔ s ≠ "".
Proof. destruct s; simpl; split; done. Qed.

Lemma posts_app (t1 t2 : list effect) : posts (t1 ++ t2) = posts t1 ++ posts t2.
Proof. apply List.filter_app. Qed.

Lemma lookups_app (t1 t2 : list effect) :
  lookups (t1 ++ t2) = lookups t1 ++ lookups t2.
Proof. apply List.filter_app. Qed.


(** The handler on a deletion with a complete configuration. *)
Lemma handle_deleted environ event_data :
  event_type_of (method_name_of event_data) = Some "secret_deleted" →
  Py.truthy (gitlab_project_id (read_config environ)) = true →
  Py.truthy (gitlab_trigger_token (read_config environ)) = true →
  let resource_name := resource_name_of event_data in
  let secret_name := default "unknown" (Py.split "/" resource_name !! 3%nat) in
  let go := trigger_stage w (read_config environ) "secret_deleted" secret_name
              resource_name in
  ∃ required,
    parse_required_labels (required_labels_str (read_config environ)) = Ok required ∧
    handle_secret_event w environ event_data =
    (Printed (MsgReceived (method_name_of event_data) resource_name)
       :: (if dict_truthy required then [Printed (MsgDeletedNote secret_name)] else [])
       ++ trace go, outcome go).
Proof.
  intros Het Hp%truthy_true Ht%truthy_true resource_name secret_name go.
  destruct (parse_required_labels_ok (required_labels_str (read_config environ)))
    as [required Hreq].
  exists required. split; [done|].
  rewrite (handle_configured environ event_data _ required Het Hp Ht Hreq).
  fold resource_name secret_name. by rewrite label_stage_deleted.
Qed.


(** The request does not depend on the filter. *)
Lemma read_config_filter environ labels_str :
  read_config (<["REQUIRED_LABELS" := labels_str]> environ) =
  {| gcp_project_id := gcp_project_id (read_config environ);
     gitlab_url := gitlab_url (read_config environ);
     gitlab_project_id := gitlab_project_id (read_config environ);
     gitlab_trigger_token := gitlab_trigger_token (read_config environ);
     gitlab_ref := gitlab_ref (read_config environ);
     required_labels_str := labels_str |}.
Proof.
  unfold read_config, dict_get. simpl.
  rewrite lookup_insert_eq. by rewrite !lookup_insert_ne.
Qed.

End effect_facts.

(** * The claims of the specification *)

(** ** Filter evaluation *)

(** C1: [should_trigger_pipeline] returns true exactly when every key of
    the required labels is a key of the fetched labels with the same
    string as value.  An empty filter always gives true, a non-empty filter
    against no labels gives false; the comparison is exact, so a value that
    differs only in case does not match. *)
Theorem should_trigger_pipeline_iff :
  (∀ labels required : gmap string string,
     should_trigger_pipeline labels required = true ↔
     ∀ key value, required !! key = Some value → labels !! key = Some value) ∧
  (∀ labels : gmap string string, should_trigger_pipeline labels ∅ = true) ∧
  (∀ required : gmap string string,
     dict_truthy required = true → should_trigger_pipeline ∅ required = false) ∧
  should_trigger_pipeline {[ "a" := "1"; "b" := "2" ]} {[ "a" := "1" ]} = true ∧
  should_trigger_pipeline {[ "a" := "2" ]} {[ "a" := "1" ]} = false ∧
  should_trigger_pipeline ∅ {[ "a" := "1" ]} = false ∧
  should_trigger_pipeline {[ "env" := "Prod" ]} {[ "env" := "prod" ]} = false.
Proof.
  split; [apply should_trigger_spec|].
  split; [intros labels; by apply should_trigger_spec|].
  split; [intros required H%dict_truthy_true; by apply should_trigger_no_labels|].
  repeat split; by vm_compute.
Qed.

Lemma should_trigger_pipeline_iff_witness :
  dict_truthy ({[ "env" := "prod" ]} : gmap string string) = true ∧
  should_trigger_pipeline ∅ {[ "env" := "prod" ]} = false.
Proof.
  split; [reflexivity|].
  apply (proj1 (proj2 (proj2 should_trigger_pipeline_iff))). reflexivity.
Defined.

(** ** Event classification *)

(** C2: the method name is tested for "CreateSecret", "AddSecretVersion"
    and "DeleteSecret" in that order and the first fragment it contains
    decides the event type; a method name that contains none of them is not
    handled: the invocation prints two lines and returns, with no lookup,
    no outbound call and no exception. *)
Theorem event_type_by_first_fragment (method_name : string) :
  (Py.contains "CreateSecret" method_name = true →
   event_type_of method_name = Some "secret_created") ∧
  (Py.contains "CreateSecret" method_name = false →
   Py.contains "AddSecretVersion" method_name = true →
   event_type_of method_name = Some "secret_updated") ∧
  (Py.contains "CreateSecret" method_name = false →
   Py.contains "AddSecretVersion" method_name = false →
   Py.contains "DeleteSecret" method_name = true →
   event_type_of method_name = Some "secret_deleted") ∧
  (Py.contains "CreateSecret" method_name = false →
   Py.contains "AddSecretVersion" method_name = false →
   Py.contains "DeleteSecret" method_name = false →
   event_type_of method_name = None ∧
   ∀ w environ event_data,
     method_name_of event_data = method_name →
     handle_secret_event w environ event_data =
     ([Printed (MsgReceived method_name (resource_name_of event_data));
       Printed (MsgIgnored method_name)], Ok tt)) ∧
  (∀ a b, method_name = a +:+ "CreateSecret" +:+ b →
          event_type_of method_name = Some "secret_created").
Proof.
  unfold event_type_of. split; [|split; [|split; [|split]]].
  - by intros ->.
  - by intros -> ->.
  - by intros -> -> ->.
  - intros Hc Ha Hd. rewrite Hc, Ha, Hd. split; [done|].
    intros w environ event_data <-. apply handle_unhandled.
    unfold event_type_of. by rewrite Hc, Ha, Hd.
  - intros a b ->. by rewrite contains_app.
Qed.

Lemma event_type_by_first_fragment_witness :
  event_type_of "google.cloud.secretmanager.v1.SecretManagerService.AddSecretVersion"
    = Some "secret_updated" ∧
  event_type_of "CreateSecret/DeleteSecret" = Some "secret_created" ∧
  handle_secret_event unreachable sample_environ
    (audit_event "SetIamPolicy" "projects/p/secrets/s") =
  ([Printed (MsgReceived "SetIamPolicy" "projects/p/secrets/s");
    Printed (MsgIgnored "SetIamPolicy")], Ok tt).
Proof.
  split; [|split].
  - apply (proj1 (proj2 (event_type_by_first_fragment _))); reflexivity.
  - apply (proj1 (event_type_by_first_fragment _)); reflexivity.
  - apply (proj1 (proj2 (proj2 (proj2 (event_type_by_first_fragment "SetIamPolicy")))));
      reflexivity.
Defined.

(** C9: when the payload has no [protoPayload], or the [protoPayload] has
    no [methodName] or no [resourceName], the missing field reads as the
    empty string.  The empty method name contains none of the three
    fragments, so the event is not handled: the invocation returns with no
    lookup and no outbound call. *)
Theorem missing_fields_read_as_empty (event_data : gmap string (gmap string string)) :
  (event_data !! "protoPayload" = None →
   method_name_of event_data = "" ∧ resource_name_of event_data = "") ∧
  (∀ proto_payload, event_data !! "protoPayload" = Some proto_payload →
     proto_payload !! "methodName" = None → method_name_of event_data = "") ∧
  (∀ proto_payload, event_data !! "protoPayload" = Some proto_payload →
     proto_payload !! "resourceName" = None → resource_name_of event_data = "") ∧
  event_type_of "" = None ∧
  (method_name_of event_data = "" →
   ∀ w environ,
     handle_secret_event w environ event_data =
     ([Printed (MsgReceived "" (resource_name_of event_data));
       Printed (MsgIgnored "")], Ok tt)).
Proof.
  unfold method_name_of, resource_name_of, dict_get.
  split; [|split; [|split; [|split]]].
  - by intros ->.
  - intros pp -> H. simpl. by rewrite H.
  - intros pp -> H. simpl. by rewrite H.
  - done.
  - intros Hm w environ.
    rewrite (handle_unhandled w environ event_data);
      unfold method_name_of, resource_name_of, dict_get; by rewrite Hm.
Qed.

Lemma missing_fields_read_as_empty_witness :
  (∅ : gmap string (gmap string string)) !! "protoPayload" = None ∧
  handle_secret_event unreachable sample_environ ∅ =
  ([Printed (MsgReceived "" ""); Printed (MsgIgnored "")], Ok tt).
Proof.
  split; [reflexivity|].
  change "" with (resource_name_of ∅) at 2.
  apply (proj2 (proj2 (proj2 (proj2 (missing_fields_read_as_empty ∅))))).
  apply (proj1 (missing_fields_read_as_empty ∅)). reflexivity.
Defined.

(** ** Configuration *)

(** C5: for a recognised event of any type, when [GITLAB_PROJECT_ID] or
    [GITLAB_TRIGGER_TOKEN] is absent or empty, the invocation prints the
    configuration error and returns normally: no lookup, no outbound call,
    no exception. *)
Theorem missing_configuration_ends_quietly (w : World)
    (environ : gmap string string)
    (event_data : gmap string (gmap string string)) (event_type : string) :
  event_type_of (method_name_of event_data) = Some event_type →
  dict_get environ "GITLAB_PROJECT_ID" "" = "" ∨
  dict_get environ "GITLAB_TRIGGER_TOKEN" "" = "" →
  let h := handle_secret_event w environ event_data in
  h = ([Printed (MsgReceived (method_name_of event_data) (resource_name_of event_data));
        Printed MsgMissingConfig], Ok tt) ∧
  outcome h = Ok tt ∧ posts (trace h) = [] ∧ lookups (trace h) = [].
Proof.
  intros Het Hcfg h. subst h.
  rewrite (handle_missing_config w environ event_data event_type Het Hcfg).
  done.
Qed.

Lemma missing_configuration_ends_quietly_witness :
  outcome (handle_secret_event unreachable {[ "GITLAB_PROJECT_ID" := "7" ]}
             (audit_event "DeleteSecret" "projects/p/secrets/s")) = Ok tt ∧
  posts (trace (handle_secret_event unreachable {[ "GITLAB_PROJECT_ID" := "7" ]}
                  (audit_event "DeleteSecret" "projects/p/secrets/s"))) = [].
Proof.
  pose proof (missing_configuration_ends_quietly unreachable
                {[ "GITLAB_PROJECT_ID" := "7" ]}
                (audit_event "DeleteSecret" "projects/p/secrets/s")
                "secret_deleted" eq_refl (or_intror eq_refl)) as (_ & Ho & Hp & _).
  exact (conj Ho Hp).
Defined.

(** ** The parsers *)

(** C7: [parse_required_labels] never raises.  The empty string gives the
    empty dictionary.  The text is cut at every comma: a last token without
    ['='] changes nothing, and a last token [k=v], cut at its first ['=']
    so that [v] may contain more of them, sets the label [k.strip()] to
    [v.strip()].  The three examples of the specification follow, and one
    with white space around the names and a value containing ['=']. *)
Theorem parse_required_labels_spec :
  parse_required_labels "" = Ok ∅ ∧
  (∀ s, ∃ parsed, parse_required_labels s = Ok parsed) ∧
  (∀ t, Py.contains "," t = false → Py.contains "=" t = false →
        parse_required_labels t = Ok ∅) ∧
  (∀ k v, Py.contains "," k = false → Py.contains "=" k = false →
          Py.contains "," v = false →
          parse_required_labels (k +:+ "=" +:+ v) = Ok {[ Py.strip k := Py.strip v ]}) ∧
  (∀ s t parsed, parse_required_labels s = Ok parsed →
        Py.contains "," t = false → Py.contains "=" t = false →
        parse_required_labels (s +:+ "," +:+ t) = Ok parsed) ∧
  (∀ s k v parsed, parse_required_labels s = Ok parsed →
        Py.contains "," k = false → Py.contains "=" k = false →
        Py.contains "," v = false →
        parse_required_labels (s +:+ "," +:+ k +:+ "=" +:+ v) =
        Ok (<[ Py.strip k := Py.strip v ]> parsed)) ∧
  parse_required_labels "env=prod, trigger=true" =
    Ok {[ "env" := "prod"; "trigger" := "true" ]} ∧
  parse_required_labels "bad,env=prod" = Ok {[ "env" := "prod" ]} ∧
  parse_required_labels "  env = prod ,expr=a=b" =
    Ok {[ "env" := "prod"; "expr" := "a=b" ]}.
Proof.
  assert (Hkv : ∀ k v, Py.contains "," k = false → Py.contains "," v = false →
                       Py.contains "," (k +:+ "=" +:+ v) = false).
  { intros k v Hk Hv. rewrite !contains_char_app, Hk, Hv. done. }
  split; [done|]. split; [apply parse_required_labels_ok|].
  split; [|split; [|split; [|split]]].
  - intros t Hc He. rewrite parse_required_labels_pairs, split_no_sep by done.
    by apply parse_pairs_skip.
  - intros k v Hk Hek Hv.
    rewrite parse_required_labels_pairs, split_no_sep by by apply Hkv.
    by apply parse_pairs_set.
  - intros s t parsed Hs Hc He.
    rewrite (parse_required_labels_snoc s t parsed Hs Hc).
    by apply parse_pairs_skip.
  - intros s k v parsed Hs Hk Hek Hv.
    rewrite (parse_required_labels_snoc s _ parsed Hs (Hkv k v Hk Hv)).
    by apply parse_pairs_set.
  - repeat split; by vm_compute.
Qed.

Lemma parse_required_labels_spec_witness :
  parse_required_labels "env=prod" = Ok {[ "env" := "prod" ]} ∧
  Py.contains "," " trigger" = false ∧
  parse_required_labels ("env=prod" +:+ "," +:+ " trigger" +:+ "=" +:+ "a=b ") =
  Ok (<[ Py.strip " trigger" := Py.strip "a=b " ]> {[ "env" := "prod" ]}).
Proof.
  split; [reflexivity|]. split; [reflexivity|].
  apply (proj1 (proj2 (proj2 (proj2 (proj2 (proj2 parse_required_labels_spec))))));
    reflexivity.
Defined.

(** C8: [extract_secret_info] never raises: it returns the pieces at
    indices 1 and 3 of the path cut at every ['/'], and "unknown" for a
    piece the path is too short to have.  So a path without ['/'] gives
    "unknown" twice, a path of two or three pieces gives its second piece
    and "unknown", and a path of four or more pieces gives its second and
    its fourth. *)
Theorem extract_secret_info_never_raises :
  (∀ resource_name,
     extract_secret_info resource_name =
     Ok (default "unknown" (Py.split "/" resource_name !! 1%nat),
         default "unknown" (Py.split "/" resource_name !! 3%nat))) ∧
  (∀ a, Py.contains "/" a = false →
        extract_secret_info a = Ok ("unknown", "unknown")) ∧
  (∀ a b c, Py.contains "/" a = false → Py.contains "/" b = false →
            Py.contains "/" c = false →
            extract_secret_info (a +:+ "/" +:+ b) = Ok (b, "unknown") ∧
            extract_secret_info (a +:+ "/" +:+ b +:+ "/" +:+ c) = Ok (b, "unknown")) ∧
  (∀ a b c d rest, Py.contains "/" a = false → Py.contains "/" b = false →
            Py.contains "/" c = false → Py.contains "/" d = false →
            extract_secret_info (a +:+ "/" +:+ b +:+ "/" +:+ c +:+ "/" +:+ d)
              = Ok (b, d) ∧
            extract_secret_info
              (a +:+ "/" +:+ b +:+ "/" +:+ c +:+ "/" +:+ d +:+ "/" +:+ rest)
              = Ok (b, d)) ∧
  extract_secret_info "projects/p1/secrets/s1/versions/3" = Ok ("p1", "s1") ∧
  extract_secret_info "short" = Ok ("unknown", "unknown").
Proof.
  split; [apply extract_secret_info_ok|].
  split; [|split; [|split]].
  - intros a Ha. by rewrite extract_secret_info_ok, split_no_sep.
  - intros a b c Ha Hb Hc. rewrite !extract_secret_info_ok.
    change (a +:+ "/" +:+ b) with (a +:+ String "/" b).
    change (a +:+ "/" +:+ b +:+ "/" +:+ c)
      with (a +:+ String "/" (b +:+ String "/" c)).
    rewrite !split_char_app, !split_no_sep by done. done.
  - intros a b c d rest Ha Hb Hc Hd. rewrite !extract_secret_info_ok.
    change (a +:+ "/" +:+ b +:+ "/" +:+ c +:+ "/" +:+ d)
      with (a +:+ String "/" (b +:+ String "/" (c +:+ String "/" d))).
    change (a +:+ "/" +:+ b +:+ "/" +:+ c +:+ "/" +:+ d +:+ "/" +:+ rest)
      with (a +:+ String "/" (b +:+ String "/" (c +:+ String "/"
              (d +:+ String "/" rest)))).
    rewrite !split_char_app by done. rewrite split_no_sep by done. done.
  - split; by vm_compute.
Qed.

Lemma extract_secret_info_never_raises_witness :
  Py.contains "/" "projects" = false ∧
  extract_secret_info ("projects" +:+ "/" +:+ "p1" +:+ "/" +:+ "secrets" +:+ "/"
                       +:+ "s1" +:+ "/" +:+ "versions/3") = Ok ("p1", "s1").
Proof.
  split; [reflexivity|].
  apply (proj1 (proj2 (proj2 (proj2 extract_secret_info_never_raises))));
    reflexivity.
Defined.

(** ** Label lookup *)

(** C10: [get_secret_labels] cuts its argument at the leftmost
    ["/versions/"] before it queries the service: a path without the
    separator is queried as it is, and otherwise the queried name is the
    text before the separator's first occurrence.  The path and its
    version-free form behave alike: the same single lookup, the same
    prints, the same result; so does the path the handler passes, which is
    version-free already. *)
Theorem get_secret_labels_ignores_version (w : World) (path : string) :
  without_version path = Ok (strip_version path) ∧
  (Py.contains "/versions/" path = false → strip_version path = path) ∧
  (∀ a b, path = a +:+ "/versions/" +:+ b →
     ∃ rest, path = strip_version path +:+ "/versions/" +:+ rest ∧
       (String.length (strip_version path) ≤ String.length a)%nat) ∧
  lookups (trace (get_secret_labels w path)) = [GetSecret (strip_version path)] ∧
  get_secret_labels w (strip_version path) = get_secret_labels w path ∧
  (∀ secret_path, without_version path = Ok secret_path →
     get_secret_labels w secret_path = get_secret_labels w path).
Proof.
  assert (Hsame : get_secret_labels w (strip_version path) = get_secret_labels w path).
  { by rewrite !get_secret_labels_run, strip_version_idemp. }
  split; [apply without_version_ok|]. split; [|split; [|split; [|split]]].
  - intros H%cut_None. unfold strip_version. by rewrite H.
  - intros a b Hp. unfold strip_version.
    destruct (Py.cut "/versions/" path) as [[before after]|] eqn:E.
    + exists after. split; [by apply cut_Some | by eapply cut_leftmost].
    + apply cut_None in E. by rewrite Hp, contains_app in E.
  - rewrite get_secret_labels_run.
    by destruct (get_secret w (strip_version path)).
  - done.
  - intros secret_path. rewrite without_version_ok. by intros [= <-].
Qed.

Lemma get_secret_labels_ignores_version_witness :
  without_version "projects/p/secrets/s/versions/3" = Ok "projects/p/secrets/s" ∧
  get_secret_labels (answering 201 ∅) "projects/p/secrets/s" =
  get_secret_labels (answering 201 ∅) "projects/p/secrets/s/versions/3".
Proof.
  split; [reflexivity|].
  apply (proj2 (proj2 (proj2 (proj2 (proj2
           (get_secret_labels_ignores_version (answering 201 ∅)
              "projects/p/secrets/s/versions/3")))))).
  reflexivity.
Defined.

(** ** Deletion events *)

(** C3: on a deletion event with a complete configuration the handler
    looks no labels up and makes the outbound trigger call, once; when the
    parsed filter is not empty it prints the note that the labels could not
    be verified.  The call and the result of the invocation are the same
    for every filter string and every state of the Secret Manager, so the
    filter plays no part. *)
Theorem deletion_skips_the_label_check (w : World)
    (environ : gmap string string)
    (event_data : gmap string (gmap string string)) :
  event_type_of (method_name_of event_data) = Some "secret_deleted" →
  Py.truthy (dict_get environ "GITLAB_PROJECT_ID" "") = true →
  Py.truthy (dict_get environ "GITLAB_TRIGGER_TOKEN" "") = true →
  let h := handle_secret_event w environ event_data in
  let resource_name := resource_name_of event_data in
  let secret_name := default "unknown" (Py.split "/" resource_name !! 3%nat) in
  lookups (trace h) = [] ∧
  posts (trace h) =
    [stage_post (read_config environ) "secret_deleted" secret_name resource_name] ∧
  (∀ required,
     parse_required_labels (dict_get environ "REQUIRED_LABELS" "") = Ok required →
     dict_truthy required = true → Printed (MsgDeletedNote secret_name) ∈ trace h) ∧
  (∀ w' labels_str,
     requests_post w' = requests_post w →
     let h' := handle_secret_event w'
                 (<["REQUIRED_LABELS" := labels_str]> environ) event_data in
     posts (trace h') = posts (trace h) ∧ outcome h' = outcome h).
Proof.
  intros Het Hp Ht h resource_name secret_name.
  destruct (handle_deleted w environ event_data Het Hp Ht)
    as (required & Hreq & Hh).
  fold resource_name secret_name in Hh.
  destruct (trigger_stage_trace w (read_config environ) "secret_deleted"
              secret_name resource_name) as (prints & Hgo & Hposts & Hlookups).
  assert (Hh_posts : posts (trace h) =
            [stage_post (read_config environ) "secret_deleted" secret_name
               resource_name]).
  { subst h. rewrite Hh, Hgo. simpl.
    destruct (dict_truthy required); simpl; by rewrite Hposts. }
  split; [|split; [done|split]].
  - subst h. rewrite Hh, Hgo. simpl.
    destruct (dict_truthy required); simpl; by rewrite Hlookups.
  - intros required' Hreq'. change (dict_get environ "REQUIRED_LABELS" "")
      with (required_labels_str (read_config environ)) in Hreq'.
    rewrite Hreq in Hreq'. injection Hreq' as <-. intros Htruthy.
    subst h. rewrite Hh, Htruthy. simpl. apply list_elem_of_further, list_elem_of_here.
  - intros w' labels_str Hw' h'.
    set (environ' := <["REQUIRED_LABELS" := labels_str]> environ).
    assert (Hcfg : read_config environ' = _) by apply read_config_filter.
    destruct (handle_deleted w' environ' event_data Het) as (required' & _ & Hh').
    { by rewrite Hcfg. }
    { by rewrite Hcfg. }
    fold resource_name secret_name in Hh'.
    destruct (trigger_stage_trace w' (read_config environ') "secret_deleted"
                secret_name resource_name) as (prints' & Hgo' & Hposts' & _).
    rewrite Hh_posts. subst h h' environ'. rewrite Hh', Hh. simpl. split.
    + rewrite Hgo'. destruct (dict_truthy required'); simpl; rewrite Hposts';
        by rewrite Hcfg.
    + rewrite !trigger_stage_run, Hw', Hcfg. done.
Qed.

Lemma deletion_skips_the_label_check_witness :
  event_type_of (method_name_of (audit_event "DeleteSecret" "projects/p/secrets/gone"))
    = Some "secret_deleted" ∧
  lookups (trace (handle_secret_event unreachable sample_environ
                    (audit_event "DeleteSecret" "projects/p/secrets/gone"))) = [] ∧
  posts (trace (handle_secret_event unreachable sample_environ
                  (audit_event "DeleteSecret" "projects/p/secrets/gone"))) =
  [stage_post (read_config sample_environ) "secret_deleted" "gone"
     "projects/p/secrets/gone"].
Proof.
  split; [reflexivity|].
  pose proof (deletion_skips_the_label_check unreachable sample_environ
                (audit_event "DeleteSecret" "projects/p/secrets/gone")
                eq_refl eq_refl eq_refl) as (Hl & Hp & _).
  exact (conj Hl Hp).
Defined.

(** ** Failures of the label lookup *)

(** C4: [get_secret_labels] never raises; when the lookup fails it prints
    the error and returns the empty dictionary.  On an event that is no
    deletion, with a complete configuration and a non-empty filter, a
    failed lookup makes the filter false and the invocation returns with no
    outbound call; with an empty filter no lookup is made and the trigger
    call goes out. *)
Theorem label_fetch_failure_is_absorbed (w : World) :
  (∀ name, ∃ labels, outcome (get_secret_labels w name) = Ok labels) ∧
  (∀ name e,
     get_secret w (strip_version name) = Raise e →
     get_secret_labels w name =
     ([GetSecret (strip_version name);
       Printed (MsgLabelError (strip_version name) e)], Ok ∅)) ∧
  (∀ environ event_data event_type required e,
     event_type_of (method_name_of event_data) = Some event_type →
     String.eqb event_type "secret_deleted" = false →
     Py.truthy (dict_get environ "GITLAB_PROJECT_ID" "") = true →
     Py.truthy (dict_get environ "GITLAB_TRIGGER_TOKEN" "") = true →
     parse_required_labels (dict_get environ "REQUIRED_LABELS" "") = Ok required →
     dict_truthy required = true →
     get_secret w (strip_version (resource_name_of event_data)) = Raise e →
     let h := handle_secret_event w environ event_data in
     let secret_name :=
       default "unknown" (Py.split "/" (resource_name_of event_data) !! 3%nat) in
     should_trigger_pipeline ∅ required = false ∧
     outcome h = Ok tt ∧ posts (trace h) = [] ∧
     Printed (MsgNoMatch secret_name ∅ required) ∈ trace h) ∧
  (∀ environ event_data event_type,
     event_type_of (method_name_of event_data) = Some event_type →
     Py.truthy (dict_get environ "GITLAB_PROJECT_ID" "") = true →
     Py.truthy (dict_get environ "GITLAB_TRIGGER_TOKEN" "") = true →
     parse_required_labels (dict_get environ "REQUIRED_LABELS" "") = Ok ∅ →
     let h := handle_secret_event w environ event_data in
     let secret_name :=
       default "unknown" (Py.split "/" (resource_name_of event_data) !! 3%nat) in
     lookups (trace h) = [] ∧
     posts (trace h) =
       [stage_post (read_config environ) event_type secret_name
          (resource_name_of event_data)]).
Proof.
  split; [|split; [|split]].
  - intros name. rewrite get_secret_labels_run.
    destruct (get_secret w (strip_version name)); by eexists.
  - intros name e He. by rewrite get_secret_labels_run, He.
  - intros environ event_data event_type required e Het Hnd Hp%truthy_true
      Ht%truthy_true Hreq Htruthy He h secret_name.
    pose proof Htruthy as Hne%dict_truthy_true.
    pose proof (should_trigger_no_labels required Hne) as Hfalse.
    split; [done|]. subst h.
    rewrite (handle_configured w environ event_data _ required Het Hp Ht Hreq).
    fold secret_name. apply String.eqb_neq in Hnd.
    destruct (label_stage_checked w (read_config environ) required event_type
                secret_name (strip_version (resource_name_of event_data))
                (resource_name_of event_data) Hnd Hne) as (labels & Hl & ->).
    rewrite get_secret_labels_run, strip_version_idemp, He in Hl |- *.
    injection Hl as <-. rewrite Hfalse. simpl. split; [done|]. split; [done|].
    do 3 apply list_elem_of_further. apply list_elem_of_here.
  - intros environ event_data event_type Het Hp%truthy_true Ht%truthy_true Hreq
      h secret_name. subst h.
    rewrite (handle_configured w environ event_data _ ∅ Het Hp Ht Hreq).
    fold secret_name. rewrite label_stage_no_filter.
    destruct (trigger_stage_trace w (read_config environ) event_type secret_name
                (resource_name_of event_data)) as (prints & -> & Hposts & Hlookups).
    simpl. by rewrite Hposts, Hlookups.
Qed.

Lemma label_fetch_failure_is_absorbed_witness :
  get_secret unreachable (strip_version "projects/p/secrets/s/versions/2") =
    Raise (ServiceError "Unavailable") ∧
  outcome (handle_secret_event unreachable sample_environ
             (audit_event "AddSecretVersion" "projects/p/secrets/s/versions/2")) = Ok tt ∧
  posts (trace (handle_secret_event unreachable sample_environ
                  (audit_event "AddSecretVersion" "projects/p/secrets/s/versions/2"))) = [].
Proof.
  split; [reflexivity|].
  pose proof (proj1 (proj2 (proj2 (label_fetch_failure_is_absorbed unreachable)))
                sample_environ
                (audit_event "AddSecretVersion" "projects/p/secrets/s/versions/2")
                "secret_updated" {[ "env" := "prod" ]} (ServiceError "Unavailable")
                eq_refl eq_refl eq_refl eq_refl eq_refl eq_refl eq_refl)
    as (_ & Ho & Hp & _).
  exact (conj Ho Hp).
Defined.

(** ** Failures of the trigger call *)




(** * Further properties of the code *)

(** ** More on the string primitives *)

Section more_string_facts.
Implicit Types (s sep sub a b : string) (c d : ascii).

(** The pieces of a split contain no separator... *)
Lemma split_pieces_free sep s piece :
  sep ≠ "" → piece ∈ Py.split sep s → Py.contains sep piece = false.
Proof.
  intros Hsep. remember (String.length s) as n eqn:En.
  revert s En. induction (lt_wf n) as [n _ IH]. intros s -> Hin.
  destruct (Py.cut sep s) as [[x y]|] eqn:E.
  - rewrite (split_cut _ _ _ _ Hsep E) in Hin.
    apply elem_of_cons in Hin as [->|Hin].
    + by apply (cut_before_free _ _ _ _ Hsep E).
    + by apply (IH _ (cut_after_shorter _ _ _ _ Hsep E) y).
  - apply cut_None in E. rewrite (split_no_sep _ _ E) in Hin.
    by apply list_elem_of_singleton in Hin as ->.
Qed.

(** ... and nothing else that the text does not contain. *)
Lemma split_pieces_sub sep sub s piece :
  sep ≠ "" → Py.contains sub s = false → piece ∈ Py.split sep s →
  Py.contains sub piece = false.
Proof.
  intros Hsep. remember (String.length s) as n eqn:En.
  revert s En. induction (lt_wf n) as [n _ IH]. intros s -> Hs Hin.
  destruct (Py.cut sep s) as [[x y]|] eqn:E.
  - rewrite (split_cut _ _ _ _ Hsep E) in Hin.
    pose proof (cut_Some _ _ _ _ E) as Hcut.
    apply elem_of_cons in Hin as [->|Hin].
    + apply not_true_is_false. intros Hx. rewrite Hcut in Hs.
      by rewrite contains_app_l in Hs.
    + apply (IH _ (cut_after_shorter _ _ _ _ Hsep E) y); [done| |done].
      apply not_true_is_false. intros Hy. rewrite Hcut in Hs.
      rewrite contains_app_r in Hs; [done | by apply contains_app_r].
  - apply cut_None in E. rewrite (split_no_sep _ _ E) in Hin.
    by apply list_elem_of_singleton in Hin as ->.
Qed.

(** A character that is not the separator is in the text exactly when it
    is in one of the pieces. *)
Lemma contains_char_split c d s :
  c ≠ d →
  Py.contains (String c "") s =
  existsb (Py.contains (String c "")) (Py.split (String d "") s).
Proof.
  intros Hcd. remember (String.length s) as n eqn:En.
  revert s En. induction (lt_wf n) as [n _ IH]. intros s ->.
  destruct (Py.cut (String d "") s) as [[x y]|] eqn:E.
  - rewrite (split_cut _ _ _ _ (char_ne_empty d) E). simpl.
    rewrite <- (IH _ (cut_after_shorter _ _ _ _ (char_ne_empty d) E) y eq_refl).
    rewrite (cut_Some _ _ _ _ E) at 1.
    rewrite !contains_char_app. f_equal. simpl.
    destruct (Ascii.eqb_spec c d); [done|]. by destruct y.
  - apply cut_None in E. rewrite (split_no_sep _ _ E). simpl.
    by rewrite orb_false_r.
Qed.

Lemma contains_char_lstrip c s :
  Py.isspace c = false →
  Py.contains (String c "") (Py.lstrip s) = Py.contains (String c "") s.
Proof.
  intros Hc. induction s as [|d s IH]; [done|].
  cbn [Py.lstrip]. destruct (Py.isspace d) eqn:Ed; [|done].
  rewrite IH. simpl. destruct (Ascii.eqb_spec c d) as [->|]; [congruence|].
  by destruct s.
Qed.

Lemma contains_char_rstrip c s :
  Py.isspace c = false →
  Py.contains (String c "") (Py.rstrip s) = Py.contains (String c "") s.
Proof.
  intros Hc. induction s as [|d s IH]; [done|].
  cbn [Py.rstrip]. destruct (Py.rstrip s) as [|e r] eqn:Er.
  - destruct (Py.isspace d) eqn:Ed.
    + simpl. destruct (Ascii.eqb_spec c d) as [->|]; [congruence|].
      rewrite <- IH. by destruct s.
    + change (String d s) with (String d "" +:+ s).
      rewrite contains_char_app, <- IH. simpl. by rewrite !orb_false_r.
  - change (String d (String e r)) with (String d "" +:+ String e r).
    change (String d s) with (String d "" +:+ s).
    by rewrite !contains_char_app, IH.
Qed.

Lemma contains_char_strip c s :
  Py.isspace c = false →
  Py.contains (String c "") (Py.strip s) = Py.contains (String c "") s.
Proof.
  intros Hc. unfold Py.strip.
  by rewrite contains_char_rstrip, contains_char_lstrip.
Qed.

(** What [strip] returns has no white space at either end. *)
Lemma lstrip_starts s : starts_with_space (Py.lstrip s) = false.
Proof.
  induction s as [|c s IH]; [done|]. cbn [Py.lstrip].
  by destruct (Py.isspace c) eqn:E.
Qed.

Lemma rstrip_ends s : ends_with_space (Py.rstrip s) = false.
Proof.
  induction s as [|c s IH]; [done|]. cbn [Py.rstrip].
  destruct (Py.rstrip s) as [|d r] eqn:E.
  - by destruct (Py.isspace c) eqn:Ec; simpl.
  - done.
Qed.

Lemma rstrip_starts s :
  starts_with_space s = false → starts_with_space (Py.rstrip s) = false.
Proof.
  destruct s as [|c s]; [done|]. simpl. intros Hc.
  destruct (Py.rstrip s); by rewrite ?Hc.
Qed.

Lemma strip_trimmed s : trimmed (Py.strip s) = true.
Proof.
  unfold trimmed, Py.strip.
  by rewrite rstrip_starts, rstrip_ends by apply lstrip_starts.
Qed.

Lemma app_char_inj_r c a b : a +:+ String c "" = b +:+ String c "" → a = b.
Proof.
  revert b. induction a as [|x a IH]; intros [|y b]; simpl; intros H.
  - done.
  - injection H as _ H. by destruct b.
  - injection H as _ H. by destruct a.
  - injection H as -> H. f_equal. by apply IH.
Qed.

End more_string_facts.

(** ** More on the pure helpers *)

Section more_helper_facts.
Implicit Types (labels required parsed : gmap string string) (s k v : string).

(** [should_trigger_pipeline] is inclusion of the filter in the labels. *)
Lemma should_trigger_subseteq labels required :
  should_trigger_pipeline labels required = true ↔ required ⊆ labels.
Proof. rewrite should_trigger_spec. symmetry. apply map_subseteq_spec. Qed.

(** The loop keeps what it has and adds one label for every token with
    an ['=']. *)
Lemma parse_pairs_truthy labels (pairs : list string) parsed :
  parse_pairs labels pairs = Ok parsed →
  dict_truthy parsed = dict_truthy labels || existsb (Py.contains "=") pairs.
Proof.
  revert labels. induction pairs as [|raw pairs IH]; intros labels; simpl.
  - intros [= ->]. by rewrite orb_false_r.
  - change (Py.contains "=" (Py.strip raw))
      with (Py.contains (String "=" "") (Py.strip raw)).
    rewrite contains_char_strip by done.
    destruct (Py.contains (String "=" "") raw) eqn:E.
    + destruct (Py.cut "=" (Py.strip raw)) as [[key value]|]; [|done].
      intros H%IH. rewrite H, orb_true_r.
      assert (dict_truthy (<[Py.strip key:=Py.strip value]> labels) = true) as ->; [|done].
      apply dict_truthy_true, insert_non_empty.
    + intros H%IH. by rewrite H.
Qed.

(** What the loop adds: trimmed keys and values, cut out of tokens. *)
Lemma parse_pairs_entries (P : string → string → Prop) labels
    (pairs : list string) parsed :
  (∀ key value,
     Py.contains "=" key = false →
     (∃ raw, raw ∈ pairs ∧ Py.strip raw = key +:+ "=" +:+ value) →
     P (Py.strip key) (Py.strip value)) →
  (∀ k v, labels !! k = Some v → P k v) →
  parse_pairs labels pairs = Ok parsed →
  ∀ k v, parsed !! k = Some v → P k v.
Proof.
  revert labels. induction pairs as [|raw pairs IH]; intros labels Hnew Hold; simpl.
  - by intros [= ->].
  - assert (Hnew' : ∀ key value, Py.contains "=" key = false →
              (∃ raw, raw ∈ pairs ∧ Py.strip raw = key +:+ "=" +:+ value) →
              P (Py.strip key) (Py.strip value)).
    { intros key value Hk (raw' & Hin & Hraw). apply Hnew; [done|].
      exists raw'. split; [by right | done]. }
    destruct (Py.contains "=" (Py.strip raw)) eqn:E; [|by apply IH].
    destruct (Py.cut "=" (Py.strip raw)) as [[key value]|] eqn:Ec; [|done].
    apply IH; [done|]. intros k v [[<- <-]|[_ Hk]]%lookup_insert_Some; [|by apply Hold].
    apply Hnew.
    + by apply (cut_before_free _ _ _ _ (char_ne_empty "=") Ec).
    + exists raw. split; [by left | by apply cut_Some].
Qed.

End more_helper_facts.

(** ** The required-labels parser *)

Lemma parse_required_labels_truthy (labels_str : string)
    (parsed : gmap string string) :
  parse_required_labels labels_str = Ok parsed →
  dict_truthy parsed = Py.contains "=" labels_str.
Proof.
  rewrite parse_required_labels_pairs. intros Hp.
  rewrite (parse_pairs_truthy _ _ _ Hp), (@dict_truthy_empty string). simpl.
  symmetry. by apply (contains_char_split "=" ",").
Qed.

(** X1: the parsed filter is non-empty exactly when the configured string
    contains an ['=']: a string without one, such as a blank string or a
    list of bare names, switches filtering off. *)
Theorem filter_is_active_iff_equals_sign (labels_str : string) :
  ∃ parsed,
    parse_required_labels labels_str = Ok parsed ∧
    dict_truthy parsed = Py.contains "=" labels_str.
Proof.
  destruct (parse_required_labels_ok labels_str) as [parsed Hp].
  exists parsed. split; [done | by apply parse_required_labels_truthy].
Qed.

(** X2: every key and value of the parsed filter has no white space at
    either end and contains no comma, and no key contains an ['=']. *)
Theorem parsed_labels_are_clean (labels_str : string)
    (parsed : gmap string string) (key value : string) :
  parse_required_labels labels_str = Ok parsed →
  parsed !! key = Some value →
  trimmed key = true ∧ trimmed value = true ∧
  Py.contains "=" key = false ∧
  Py.contains "," key = false ∧ Py.contains "," value = false.
Proof.
  rewrite parse_required_labels_pairs. intros Hp.
  apply (parse_pairs_entries
           (λ k v, trimmed k = true ∧ trimmed v = true ∧
                   Py.contains "=" k = false ∧
                   Py.contains "," k = false ∧ Py.contains "," v = false)
           ∅ (Py.split "," labels_str) parsed); [| |done].
  - intros k v Hk (raw & Hin & Hraw).
    pose proof (split_pieces_free _ _ _ (char_ne_empty ",") Hin) as Hc.
    apply strip_free in Hc. rewrite Hraw in Hc.
    change (k +:+ "=" +:+ v) with (k +:+ String "=" "" +:+ v) in Hc.
    rewrite !(contains_char_app ",") in Hc.
    apply orb_false_iff in Hc as [Hck [_ Hcv]%orb_false_iff].
    rewrite !strip_trimmed. repeat split; by apply strip_free.
  - intros k v. by rewrite lookup_empty.
Qed.

Lemma parsed_labels_are_clean_witness :
  parse_required_labels " env = prod ,bad" = Ok {[ "env" := "prod" ]} ∧
  trimmed "env" = true ∧ Py.contains "=" "env" = false.
Proof.
  split; [reflexivity|].
  assert (H : ({[ "env" := "prod" ]} : gmap string string) !! "env" = Some "prod")
    by (vm_compute; reflexivity).
  destruct (parsed_labels_are_clean " env = prod ,bad" {[ "env" := "prod" ]}
              "env" "prod" eq_refl H) as (Hk & _ & He & _).
  exact (conj Hk He).
Defined.

(** ** The filter *)

(** X3: labels beyond the required ones never stop a trigger, a filter
    with fewer requirements never stops one either, and two filters that
    each pass also pass together. *)
Theorem should_trigger_pipeline_monotone
    (labels labels' required required' : gmap string string) :
  (labels ⊆ labels' →
   should_trigger_pipeline labels required = true →
   should_trigger_pipeline labels' required = true) ∧
  (required' ⊆ required →
   should_trigger_pipeline labels required = true →
   should_trigger_pipeline labels required' = true) ∧
  (should_trigger_pipeline labels required = true →
   should_trigger_pipeline labels required' = true →
   should_trigger_pipeline labels (required ∪ required') = true).
Proof.
  rewrite !should_trigger_subseteq. split; [|split].
  - intros ??. by etrans.
  - intros ??. by etrans.
  - intros ??. by apply map_union_least.
Qed.

Lemma should_trigger_pipeline_monotone_witness :
  should_trigger_pipeline {[ "env" := "prod"; "team" := "a" ]}
    ({[ "env" := "prod" ]} ∪ {[ "team" := "a" ]}) = true.
Proof.
  apply (proj2 (proj2 (should_trigger_pipeline_monotone
                         {[ "env" := "prod"; "team" := "a" ]} ∅
                         {[ "env" := "prod" ]} {[ "team" := "a" ]})));
    reflexivity.
Defined.

(** ** The resource path *)

(** X4: neither component that [extract_secret_info] returns contains a
    ['/']. *)
Theorem extracted_names_have_no_slash (resource_name project_id secret_name : string) :
  extract_secret_info resource_name = Ok (project_id, secret_name) →
  Py.contains "/" project_id = false ∧ Py.contains "/" secret_name = false.
Proof.
  rewrite extract_secret_info_ok. intros [= <- <-].
  assert (H : ∀ i, Py.contains "/"
                     (default "unknown" (Py.split "/" resource_name !! i)) = false).
  { intros i. destruct (Py.split "/" resource_name !! i) as [x|] eqn:E; [|done].
    apply (split_pieces_free "/" resource_name); [done|].
    by apply list_elem_of_lookup_2 in E. }
  split; apply H.
Qed.

Lemma extracted_names_have_no_slash_witness :
  Py.contains "/" "p1" = false ∧ Py.contains "/" "s1" = false.
Proof.
  apply (extracted_names_have_no_slash "projects/p1/secrets/s1/versions/3").
  reflexivity.
Defined.

(** ** More on the version suffix *)

Section version_facts.
Implicit Types (s p a b x : string).

Lemma startswith_app_short p a b :
  Py.startswith p (a +:+ b) = true → (String.length p ≤ String.length a)%nat →
  Py.startswith p a = true.
Proof.
  revert a. induction p as [|c p IH]; intros [|d a]; simpl; try done.
  - lia.
  - destruct (Ascii.eqb c d); [|done]. intros H Hl. apply IH; [done | lia].
Qed.

Lemma startswith_contains p s :
  Py.startswith p s = true → Py.contains p s = true.
Proof. intros H. destruct s; simpl; by rewrite H. Qed.

(** Two ways to cut the same text: the shorter head is a head of the
    longer one. *)
Lemma app_eq_split a b x y :
  a +:+ x = b +:+ y → (String.length a ≤ String.length b)%nat →
  ∃ r, b = a +:+ r ∧ x = r +:+ y.
Proof.
  revert b. induction a as [|c a IH]; intros b; simpl.
  - intros -> _. by exists b.
  - destruct b as [|d b]; simpl; [lia|]. intros [= -> H] Hl.
    destruct (IH b H ltac:(lia)) as (r & -> & ->). by exists r.
Qed.

(** When the leftmost ["/versions/"] of a path is the one after [p], the
    version-free path is [p]. *)
Lemma strip_version_app p v :
  Py.contains "/versions/" (p +:+ "/versions") = false →
  strip_version (p +:+ "/versions/" +:+ v) = p.
Proof.
  intros Hfree. unfold strip_version.
  destruct (cut_is_Some "/versions/" (p +:+ "/versions/" +:+ v)
              (contains_app _ _ _)) as (before & after & Hcut).
  rewrite Hcut.
  pose proof (cut_leftmost _ _ _ _ p v Hcut eq_refl) as Hlen.
  pose proof (cut_Some _ _ _ _ Hcut) as Heq. symmetry in Heq.
  destruct (app_eq_split _ _ _ _ Heq Hlen) as (r & -> & Hr).
  destruct r as [|c r]; [by rewrite app_nil_r|]. exfalso.
  assert (Hs : Py.startswith "/versions/" (String c r +:+ "/versions") = true).
  { apply (startswith_app_short _ _ ("/" +:+ v)).
    - rewrite app_assoc. change ("/versions" +:+ "/" +:+ v) with ("/versions/" +:+ v).
      rewrite <- Hr. apply startswith_app.
    - rewrite app_length. simpl. lia. }
  apply startswith_contains in Hs.
  rewrite app_assoc in Hfree. by rewrite contains_app_r in Hfree.
Qed.

End version_facts.

(** X5: when the first ["/versions/"] of a resource name is the one that
    starts its version suffix, the path that is looked up is the resource
    name without that suffix, whatever follows the separator. *)
Theorem version_suffix_is_removed (w : World) (secret_path version : string) :
  Py.contains "/versions/" (secret_path +:+ "/versions") = false →
  without_version (secret_path +:+ "/versions/" +:+ version) = Ok secret_path ∧
  lookups (trace (get_secret_labels w (secret_path +:+ "/versions/" +:+ version)))
    = [GetSecret secret_path].
Proof.
  intros H. rewrite without_version_ok, get_secret_labels_run.
  rewrite (strip_version_app _ _ H). split; [done|].
  by destruct (get_secret w secret_path).
Qed.

Lemma version_suffix_is_removed_witness :
  Py.contains "/versions/" ("projects/p/secrets/s" +:+ "/versions") = false ∧
  without_version ("projects/p/secrets/s" +:+ "/versions/" +:+ "7/versions/8")
    = Ok "projects/p/secrets/s".
Proof.
  split; [reflexivity|].
  apply (version_suffix_is_removed unreachable "projects/p/secrets/s" "7/versions/8").
  reflexivity.
Defined.

(** ** The trigger request *)

Section request_facts.
Implicit Types (vars : gmap string string) (token ref key k v : string).

Lemma variable_field_inj k k' : variable_field k = variable_field k' → k = k'.
Proof.
  unfold variable_field. intros H. apply (inj (String.append "variables[")) in H.
  by apply app_char_inj_r in H.
Qed.

Lemma variable_field_not_base k :
  variable_field k ≠ "token" ∧ variable_field k ≠ "ref".
Proof. unfold variable_field. split; intros H; simpl in H; discriminate. Qed.

(** The loop over [variables.items()]: what it writes and what it leaves. *)
Lemma variables_loop (base vars : gmap string string) :
  let data := map_fold (λ key value d, <[variable_field key := value]> d) base vars in
  (∀ k, data !! variable_field k =
        match vars !! k with
        | Some v => Some v
        | None => base !! variable_field k
        end) ∧
  (∀ key, (∀ k, key ≠ variable_field k) → data !! key = base !! key) ∧
  (∀ key v, data !! key = Some v →
     base !! key = Some v ∨ ∃ k, key = variable_field k ∧ vars !! k = Some v).
Proof.
  cbv zeta.
  apply (map_fold_weak_ind
    (λ data vars,
       (∀ k, data !! variable_field k =
             match vars !! k with
             | Some v => Some v
             | None => base !! variable_field k
             end) ∧
       (∀ key, (∀ k, key ≠ variable_field k) → data !! key = base !! key) ∧
       (∀ key v, data !! key = Some v →
          base !! key = Some v ∨ ∃ k, key = variable_field k ∧ vars !! k = Some v))).
  - split; [intros k; by rewrite lookup_empty | split; [done | by left]].
  - intros i x m r Hi (IH1 & IH2 & IH3). split; [|split].
    + intros k. destruct (decide (i = k)) as [->|Hne].
      * by rewrite !lookup_insert_eq.
      * rewrite !lookup_insert_ne; [apply IH1 | done |].
        intros H%variable_field_inj. done.
    + intros key Hkey. rewrite lookup_insert_ne; [by apply IH2|].
      intros <-. by apply (Hkey i).
    + intros key v [[<- <-]|[Hne Hkey]]%lookup_insert_Some.
      * right. exists i. by rewrite lookup_insert_eq.
      * destruct (IH3 key v Hkey) as [?|(k & -> & Hk)]; [by left|].
        right. exists k. split; [done|]. rewrite lookup_insert_ne; [done|].
        by intros ->.
Qed.

Lemma trigger_data_lookup token ref vars :
  let data := trigger_data token ref (Some vars) in
  data !! "token" = Some token ∧ data !! "ref" = Some ref ∧
  (∀ k, data !! variable_field k = vars !! k) ∧
  (∀ key v, data !! key = Some v →
     key = "token" ∨ key = "ref" ∨ ∃ k, key = variable_field k ∧ vars !! k = Some v).
Proof.
  cbv zeta.
  set (base := (<["ref" := ref]> (<["token" := token]> ∅)) : gmap string string).
  assert (Hbase : ∀ k, base !! variable_field k = None).
  { intros k. destruct (variable_field_not_base k). subst base.
    by rewrite !lookup_insert_ne, lookup_empty. }
  assert (Hsame : trigger_data token ref (Some vars) =
            map_fold (λ key value d, <[variable_field key := value]> d) base vars).
  { unfold trigger_data. fold base. destruct (dict_truthy vars) eqn:E; [done|].
    apply dict_truthy_false in E as ->. by rewrite map_fold_empty. }
  rewrite Hsame. destruct (variables_loop base vars) as (H1 & H2 & H3).
  split; [|split; [|split]].
  - rewrite H2; [done|]. intros k H. by destruct (variable_field_not_base k).
  - rewrite H2; [done|]. intros k H. by destruct (variable_field_not_base k).
  - intros k. rewrite H1, Hbase. by destruct (vars !! k).
  - intros key v [Hb|Hv]%H3; [|by right; right]. subst base.
    apply lookup_insert_Some in Hb as [[<- _]|[_ Hb]]; [by right; left|].
    apply lookup_insert_Some in Hb as [[<- _]|[_ Hb]]; [by left|].
    by rewrite lookup_empty in Hb.
Qed.

End request_facts.

(** X6: [trigger_gitlab_pipeline] makes exactly one POST, with the timeout
    30, to the trigger URL of the project, and does nothing else, whatever
    the answer.  The form carries the token and the ref under their own
    names and each variable [k] under [variables[k]], and nothing more: no
    variable name can replace the token or the ref.  Absent and empty
    variables give the same request. *)
Theorem trigger_request_form (w : World)
    (gitlab_url project_id trigger_token ref : string)
    (variables : gmap string string) :
  let data := trigger_data trigger_token ref (Some variables) in
  trace (trigger_gitlab_pipeline w gitlab_url project_id trigger_token ref
           (Some variables)) =
    [Post (gitlab_url +:+ "/api/v4/projects/" +:+ project_id +:+ "/trigger/pipeline")
       data 30] ∧
  data !! "token" = Some trigger_token ∧
  data !! "ref" = Some ref ∧
  (∀ k, data !! ("variables[" +:+ k +:+ "]") = variables !! k) ∧
  (∀ key value, data !! key = Some value →
     key = "token" ∨ key = "ref" ∨
     ∃ k, key = "variables[" +:+ k +:+ "]" ∧ variables !! k = Some value) ∧
  trigger_gitlab_pipeline w gitlab_url project_id trigger_token ref None =
  trigger_gitlab_pipeline w gitlab_url project_id trigger_token ref (Some ∅).
Proof.
  intros data.
  destruct (trigger_data_lookup trigger_token ref variables) as (Ht & Hr & Hv & Ho).
  fold data in Ht, Hr, Hv, Ho.
  split; [|split; [done|split; [done|split; [done|split; [done|]]]]].
  - unfold trigger_gitlab_pipeline, raise_for_status. fold data.
    destruct (requests_post w _ data 30) as [e|r]; [done|]. simpl.
    by destruct (is_error_status (status_code r)).
  - unfold trigger_gitlab_pipeline, trigger_data.
    by rewrite (@dict_truthy_empty string).
Qed.

Lemma trigger_request_form_witness :
  trigger_data "glptt-0" "main" (Some {[ "SECRET_NAME" := "s" ]})
    !! "variables[SECRET_NAME]" = Some "s" ∧
  ("variables[SECRET_NAME]" = "token" ∨ "variables[SECRET_NAME]" = "ref" ∨
   ∃ k, "variables[SECRET_NAME]" = "variables[" +:+ k +:+ "]" ∧
        ({[ "SECRET_NAME" := "s" ]} : gmap string string) !! k = Some "s").
Proof.
  assert (H : trigger_data "glptt-0" "main" (Some {[ "SECRET_NAME" := "s" ]})
                !! "variables[SECRET_NAME]" = Some "s") by (vm_compute; reflexivity).
  split; [exact H|].
  exact (proj1 (proj2 (proj2 (proj2 (proj2
           (trigger_request_form unreachable "https://gitlab.com" "7" "glptt-0"
              "main" {[ "SECRET_NAME" := "s" ]})))))
           "variables[SECRET_NAME]" "s" H).
Defined.

(** ** More on the handler *)

Section more_effect_facts.
Context (w : World).
Implicit Types (cfg : config) (environ : gmap string string)
  (event_data : gmap string (gmap string string))
  (required : gmap string string).

Lemma event_type_of_range method_name event_type :
  event_type_of method_name = Some event_type →
  event_type = "secret_created" ∨ event_type = "secret_updated" ∨
  event_type = "secret_deleted".
Proof.
  unfold event_type_of.
  destruct (Py.contains "CreateSecret" method_name); [intros [= <-]; by left|].
  destruct (Py.contains "AddSecretVersion" method_name);
    [intros [= <-]; by right; left|].
  destruct (Py.contains "DeleteSecret" method_name); [|done].
  intros [= <-]. by right; right.
Qed.

(** The label stage: before the trigger stage it posts nothing and looks
    up at most the one path it is given. *)
Lemma label_stage_discipline cfg required event_type secret_name secret_path
    resource_name :
  let go := trigger_stage w cfg event_type secret_name resource_name in
  ∃ pre,
    posts pre = [] ∧
    (lookups pre = [] ∨ lookups pre = [GetSecret (strip_version secret_path)]) ∧
    (label_stage w cfg required event_type secret_name secret_path
       resource_name = (pre, Ok tt) ∨
     label_stage w cfg required event_type secret_name secret_path
       resource_name = (pre ++ trace go, outcome go)).
Proof.
  intros go. destruct (decide (required = ∅)) as [->|Hreq].
  { exists []. split; [done|]. split; [by left|]. right.
    rewrite label_stage_no_filter. by destruct (trigger_stage _ _ _ _ _). }
  destruct (decide (event_type = "secret_deleted")) as [->|Het].
  { eexists. split; [|split; [|right; apply label_stage_deleted]].
    - by destruct (dict_truthy required).
    - left. by destruct (dict_truthy required). }
  destruct (label_stage_checked w cfg required event_type secret_name
              secret_path resource_name Het Hreq) as (labels & _ & ->).
  rewrite get_secret_labels_run.
  destruct (get_secret w (strip_version secret_path)) as [l|e];
    destruct (should_trigger_pipeline labels required); simpl.
  - exists [GetSecret (strip_version secret_path);
            Printed (MsgMatch secret_name labels required)].
    split; [done|]. split; [by right | by right].
  - eexists. split; [|split; [|by left]]; [done | by right].
  - exists [GetSecret (strip_version secret_path);
            Printed (MsgLabelError (strip_version secret_path) e);
            Printed (MsgMatch secret_name labels required)].
    split; [done|]. split; [by right | by right].
  - eexists. split; [|split; [|by left]]; [done | by right].
Qed.

(** The handler: its trace begins with the line on the event; before the
    trigger stage it posts nothing and looks up at most the version-free
    resource name; and it enters the trigger stage only for a recognised
    event under a complete configuration. *)
Lemma handle_discipline environ event_data :
  let method_name := method_name_of event_data in
  let resource_name := resource_name_of event_data in
  let secret_name := default "unknown" (Py.split "/" resource_name !! 3%nat) in
  ∃ rest,
    posts rest = [] ∧
    (lookups rest = [] ∨ lookups rest = [GetSecret (strip_version resource_name)]) ∧
    (handle_secret_event w environ event_data =
       (Printed (MsgReceived method_name resource_name) :: rest, Ok tt) ∨
     ∃ event_type,
       event_type_of method_name = Some event_type ∧
       gitlab_project_id (read_config environ) ≠ "" ∧
       gitlab_trigger_token (read_config environ) ≠ "" ∧
       let go := trigger_stage w (read_config environ) event_type secret_name
                   resource_name in
       handle_secret_event w environ event_data =
       (Printed (MsgReceived method_name resource_name) :: rest ++ trace go,
        outcome go)).
Proof.
  intros method_name resource_name secret_name.
  destruct (event_type_of method_name) as [event_type|] eqn:Het.
  2: { eexists. split; [|split; [|left; by apply handle_unhandled]]; [done | by left]. }
  destruct (decide (gitlab_project_id (read_config environ) = "")) as [Hp|Hp].
  { eexists. split; [|split; [|left; eapply handle_missing_config; eauto]];
      [done | by left]. }
  destruct (decide (gitlab_trigger_token (read_config environ) = "")) as [Ht|Ht].
  { eexists. split; [|split; [|left; eapply handle_missing_config; eauto]];
      [done | by left]. }
  destruct (parse_required_labels_ok (required_labels_str (read_config environ)))
    as [required Hreq].
  rewrite (handle_configured w environ event_data _ required Het Hp Ht Hreq).
  fold resource_name secret_name method_name.
  destruct (label_stage_discipline (read_config environ) required event_type
              secret_name (strip_version resource_name) resource_name)
    as (pre & Hposts & Hlookups & [-> | ->]).
  - exists pre. rewrite strip_version_idemp in Hlookups.
    split; [done|]. split; [done|]. by left.
  - exists pre. rewrite strip_version_idemp in Hlookups.
    split; [done|]. split; [done|]. right. by exists event_type.
Qed.

Lemma pipeline_variables_lookup event_type secret_name resource_name project :
  let vars := pipeline_variables event_type secret_name resource_name project in
  vars !! "SECRET_EVENT_TYPE" = Some event_type ∧
  vars !! "SECRET_NAME" = Some secret_name ∧
  vars !! "SECRET_RESOURCE" = Some resource_name ∧
  vars !! "GCP_PROJECT_ID" = Some project ∧
  vars !! "TRIGGERED_BY" = Some "gcp-secret-manager-webhook" ∧
  size vars = 5%nat.
Proof.
  cbv zeta. unfold pipeline_variables.
  repeat split; by simplify_map_eq.
Qed.

End more_effect_facts.

Section decision_facts.
Context (w : World).
Implicit Types (environ : gmap string string)
  (event_data : gmap string (gmap string string))
  (required : gmap string string).

Lemma get_secret_labels_outcome path :
  get_secret_labels w path =
  (trace (get_secret_labels w path), Ok (labels_or_empty w (strip_version path))).
Proof.
  rewrite get_secret_labels_run. unfold labels_or_empty.
  by destruct (get_secret w (strip_version path)).
Qed.

Lemma get_secret_labels_trace path :
  posts (trace (get_secret_labels w path)) = [] ∧
  lookups (trace (get_secret_labels w path)) = [GetSecret (strip_version path)].
Proof.
  rewrite get_secret_labels_run.
  by destruct (get_secret w (strip_version path)).
Qed.

(** The whole decision of the handler for a recognised event under a
    complete configuration. *)
Lemma handle_decided environ event_data event_type required :
  event_type_of (method_name_of event_data) = Some event_type →
  gitlab_project_id (read_config environ) ≠ "" →
  gitlab_trigger_token (read_config environ) ≠ "" →
  parse_required_labels (required_labels_str (read_config environ)) = Ok required →
  let method_name := method_name_of event_data in
  let resource_name := resource_name_of event_data in
  let secret_name := default "unknown" (Py.split "/" resource_name !! 3%nat) in
  let labels := labels_or_empty w (strip_version resource_name) in
  let checked := negb (String.eqb event_type "secret_deleted") && dict_truthy required in
  let go := trigger_stage w (read_config environ) event_type secret_name
              resource_name in
  ∃ pre,
    posts pre = [] ∧
    lookups pre = (if checked then [GetSecret (strip_version resource_name)] else []) ∧
    handle_secret_event w environ event_data =
    if negb checked || should_trigger_pipeline labels required
    then (Printed (MsgReceived method_name resource_name) :: pre ++ trace go,
          outcome go)
    else (Printed (MsgReceived method_name resource_name) :: pre, Ok tt).
Proof.
  intros Het Hp Ht Hreq method_name resource_name secret_name labels checked go.
  rewrite (handle_configured w environ event_data _ required Het Hp Ht Hreq).
  fold method_name resource_name secret_name. subst checked.
  destruct (String.eqb_spec event_type "secret_deleted") as [->|Hnd]; simpl.
  { rewrite label_stage_deleted. fold go. eexists. split; [|split; [|done]];
      by destruct (dict_truthy required). }
  destruct (dict_truthy required) eqn:Etr; simpl.
  2: { apply dict_truthy_false in Etr as ->. rewrite label_stage_no_filter.
       fold go. exists []. split; [done|]. split; [done|]. by destruct go. }
  apply dict_truthy_true in Etr.
  destruct (label_stage_checked w (read_config environ) required event_type
              secret_name (strip_version resource_name) resource_name Hnd Etr)
    as (labels' & Hl & ->).
  rewrite get_secret_labels_outcome in Hl. simpl in Hl.
  rewrite strip_version_idemp in Hl. injection Hl as <-. fold labels go.
  destruct (get_secret_labels_trace (strip_version resource_name)) as [Hposts Hlookups].
  rewrite strip_version_idemp in Hlookups.
  destruct (should_trigger_pipeline labels required).
  - exists (trace (get_secret_labels w (strip_version resource_name))
            ++ [Printed (MsgMatch secret_name labels required)]).
    rewrite posts_app, lookups_app, Hposts, Hlookups. split; [done|]. split; [done|].
    simpl. by rewrite <- (assoc_L (++)).
  - exists (trace (get_secret_labels w (strip_version resource_name))
            ++ [Printed (MsgNoMatch secret_name labels required)]).
    rewrite posts_app, lookups_app, Hposts, Hlookups. done.
Qed.

Lemma reaches_trigger_cons {A} (e : effect) (t : list effect) (r : result A) :
  @reaches_trigger A (e :: t, r) = is_Post e || @reaches_trigger A (t, r).
Proof. done. Qed.

Lemma existsb_filter_nil {A} (f : A → bool) (l : list A) :
  existsb f l = false ↔ List.filter f l = [].
Proof.
  induction l as [|x l IH]; simpl; [done|].
  destruct (f x); simpl; [split; done | apply IH].
Qed.

Lemma existsb_filter_cons {A} (f : A → bool) (l : list A) x rest :
  List.filter f l = x :: rest → existsb f l = true.
Proof.
  intros H. apply not_false_iff_true. rewrite existsb_filter_nil. by rewrite H.
Qed.

End decision_facts.

(** ** The handler as a whole *)

(** X7: the outbound call goes out exactly for a recognised event under a
    complete configuration that is a deletion or whose secret carries every
    required label; the labels are those the Secret Manager returns for the
    version-free resource name, none when that lookup fails. *)
Theorem trigger_decision (w : World) (environ : gmap string string)
    (event_data : gmap string (gmap string string)) :
  let h := handle_secret_event w environ event_data in
  let labels := labels_or_empty w (strip_version (resource_name_of event_data)) in
  reaches_trigger h = true ↔
  ∃ event_type required,
    event_type_of (method_name_of event_data) = Some event_type ∧
    Py.truthy (dict_get environ "GITLAB_PROJECT_ID" "") = true ∧
    Py.truthy (dict_get environ "GITLAB_TRIGGER_TOKEN" "") = true ∧
    parse_required_labels (dict_get environ "REQUIRED_LABELS" "") = Ok required ∧
    (event_type = "secret_deleted" ∨
     should_trigger_pipeline labels required = true).
Proof.
  intros h labels. subst h. split.
  - intros Hreach.
    destruct (event_type_of (method_name_of event_data)) as [event_type|] eqn:Het.
    2: { by rewrite (handle_unhandled w environ event_data Het) in Hreach. }
    destruct (decide (gitlab_project_id (read_config environ) = "")) as [Hp|Hp].
    { by rewrite (handle_missing_config w environ event_data _ Het (or_introl Hp))
        in Hreach. }
    destruct (decide (gitlab_trigger_token (read_config environ) = "")) as [Ht|Ht].
    { by rewrite (handle_missing_config w environ event_data _ Het (or_intror Ht))
        in Hreach. }
    destruct (parse_required_labels_ok (required_labels_str (read_config environ)))
      as [required Hreq].
    exists event_type, required. split; [done|].
    split; [by apply truthy_true|]. split; [by apply truthy_true|]. split; [done|].
    destruct (handle_decided w environ event_data event_type required Het Hp Ht Hreq)
      as (pre & Hposts & _ & Hh).
    fold labels in Hh.
    destruct (String.eqb_spec event_type "secret_deleted") as [->|Hnd]; [by left|].
    right. simpl in Hh.
    destruct (should_trigger_pipeline labels required) eqn:Es; [done|]. exfalso.
    destruct (dict_truthy required) eqn:Etr; simpl in Hh.
    + rewrite Hh in Hreach. unfold reaches_trigger in Hreach. simpl in Hreach.
      apply existsb_filter_nil in Hposts. congruence.
    + apply dict_truthy_false in Etr as ->.
      unfold should_trigger_pipeline in Es.
      by rewrite (@dict_truthy_empty string) in Es.
  - intros (event_type & required & Het & Hp%truthy_true & Ht%truthy_true & Hreq & Hd).
    destruct (handle_decided w environ event_data event_type required Het Hp Ht Hreq)
      as (pre & Hposts & _ & Hh).
    fold labels in Hh.
    assert (Hc : negb (negb (String.eqb event_type "secret_deleted")
                       && dict_truthy required)
                 || should_trigger_pipeline labels required = true).
    { destruct Hd as [-> | ->]; [done | by rewrite orb_true_r]. }
    rewrite Hc in Hh. rewrite Hh.
    destruct (trigger_stage_trace w (read_config environ) event_type
                (default "unknown"
                   (Py.split "/" (resource_name_of event_data) !! 3%nat))
                (resource_name_of event_data)) as (prints & -> & _).
    unfold reaches_trigger. simpl. rewrite existsb_app. simpl.
    by rewrite orb_true_r.
Qed.

Lemma trigger_decision_witness :
  reaches_trigger (handle_secret_event (answering 201 ∅) sample_environ
                     (audit_event "AddSecretVersion" "projects/p/secrets/s/versions/2"))
    = true ∧
  ∃ event_type required,
    event_type_of (method_name_of
       (audit_event "AddSecretVersion" "projects/p/secrets/s/versions/2"))
      = Some event_type ∧
    Py.truthy (dict_get sample_environ "GITLAB_PROJECT_ID" "") = true ∧
    Py.truthy (dict_get sample_environ "GITLAB_TRIGGER_TOKEN" "") = true ∧
    parse_required_labels (dict_get sample_environ "REQUIRED_LABELS" "") = Ok required ∧
    (event_type = "secret_deleted" ∨
     should_trigger_pipeline
       (labels_or_empty (answering 201 ∅)
          (strip_version (resource_name_of
             (audit_event "AddSecretVersion" "projects/p/secrets/s/versions/2"))))
       required = true).
Proof.
  split; [reflexivity|].
  apply (proj1 (trigger_decision (answering 201 ∅) sample_environ
                  (audit_event "AddSecretVersion" "projects/p/secrets/s/versions/2"))).
  reflexivity.
Defined.

(** X8: the Secret Manager is queried exactly for a recognised event that
    is no deletion, under a complete configuration whose filter string
    contains an ['=']. *)
Theorem labels_are_queried_iff (w : World) (environ : gmap string string)
    (event_data : gmap string (gmap string string)) :
  queries_labels (handle_secret_event w environ event_data) = true ↔
  ∃ event_type,
    event_type_of (method_name_of event_data) = Some event_type ∧
    String.eqb event_type "secret_deleted" = false ∧
    Py.truthy (dict_get environ "GITLAB_PROJECT_ID" "") = true ∧
    Py.truthy (dict_get environ "GITLAB_TRIGGER_TOKEN" "") = true ∧
    Py.contains "=" (dict_get environ "REQUIRED_LABELS" "") = true.
Proof.
  unfold queries_labels.
  destruct (event_type_of (method_name_of event_data)) as [event_type|] eqn:Het.
  2: { rewrite (handle_unhandled w environ event_data Het). simpl.
       split; [done | by intros (? & ? & _)]. }
  destruct (decide (gitlab_project_id (read_config environ) = "")) as [Hp|Hp].
  { rewrite (handle_missing_config w environ event_data _ Het (or_introl Hp)).
    simpl. split; [done|]. intros (? & _ & _ & Hp'%truthy_true & _). done. }
  destruct (decide (gitlab_trigger_token (read_config environ) = "")) as [Ht|Ht].
  { rewrite (handle_missing_config w environ event_data _ Het (or_intror Ht)).
    simpl. split; [done|]. intros (? & _ & _ & _ & Ht'%truthy_true & _). done. }
  destruct (parse_required_labels_ok (required_labels_str (read_config environ)))
    as [required Hreq].
  pose proof (parse_required_labels_truthy _ _ Hreq) as Htruthy.
  change (required_labels_str (read_config environ))
    with (dict_get environ "REQUIRED_LABELS" "") in Htruthy.
  destruct (handle_decided w environ event_data event_type required Het Hp Ht Hreq)
    as (pre & _ & Hlookups & Hh).
  destruct (trigger_stage_trace w (read_config environ) event_type
              (default "unknown"
                 (Py.split "/" (resource_name_of event_data) !! 3%nat))
              (resource_name_of event_data)) as (prints & Hgo & _ & Hnone).
  assert (Hq : existsb is_GetSecret (trace (handle_secret_event w environ event_data))
               = negb (String.eqb event_type "secret_deleted") && dict_truthy required).
  { rewrite Hh.
    destruct (negb (String.eqb event_type "secret_deleted") && dict_truthy required).
    - destruct (negb true || _); simpl; rewrite ?existsb_app;
        by rewrite (existsb_filter_cons _ _ _ _ Hlookups).
    - simpl. rewrite existsb_app, Hgo. simpl.
      apply existsb_filter_nil in Hlookups, Hnone.
      by rewrite Hlookups, Hnone. }
  rewrite Hq, Htruthy, andb_true_iff, negb_true_iff. split.
  - intros [Hnd Hc]. exists event_type.
    split; [done|]. split; [done|]. split; [by apply truthy_true|].
    split; [by apply truthy_true | done].
  - intros (et & [= <-] & Hnd & _ & _ & Hc). done.
Qed.

Lemma labels_are_queried_iff_witness :
  queries_labels (handle_secret_event unreachable sample_environ
                    (audit_event "CreateSecret" "projects/p/secrets/s")) = true.
Proof.
  apply (proj2 (labels_are_queried_iff unreachable sample_environ
                  (audit_event "CreateSecret" "projects/p/secrets/s"))).
  exists "secret_created". repeat split; reflexivity.
Defined.



(** X10: the call the handler makes goes to the trigger URL under
    [GITLAB_URL], by default https://gitlab.com, for the configured
    project.  Its form holds the configured token, the ref [GITLAB_REF],
    by default main, and five variables: the event type, one of the three
    known ones; the secret name, the fourth piece of the resource name or
    "unknown"; the resource name as received, version suffix included; the
    GCP project id; and the fixed marker.  The form has no other field. *)
Theorem outbound_request_content (w : World) (environ : gmap string string)
    (event_data : gmap string (gmap string string)) :
  let h := handle_secret_event w environ event_data in
  let resource_name := resource_name_of event_data in
  reaches_trigger h = true →
  ∃ event_type form,
    event_type_of (method_name_of event_data) = Some event_type ∧
    (event_type = "secret_created" ∨ event_type = "secret_updated" ∨
     event_type = "secret_deleted") ∧
    posts (trace h) =
      [Post (dict_get environ "GITLAB_URL" "https://gitlab.com"
             +:+ "/api/v4/projects/" +:+ dict_get environ "GITLAB_PROJECT_ID" ""
             +:+ "/trigger/pipeline") form 30] ∧
    dict_get environ "GITLAB_PROJECT_ID" "" ≠ "" ∧
    form !! "token" = Some (dict_get environ "GITLAB_TRIGGER_TOKEN" "") ∧
    dict_get environ "GITLAB_TRIGGER_TOKEN" "" ≠ "" ∧
    form !! "ref" = Some (dict_get environ "GITLAB_REF" "main") ∧
    form !! "variables[SECRET_EVENT_TYPE]" = Some event_type ∧
    form !! "variables[SECRET_NAME]" =
      Some (default "unknown" (Py.split "/" resource_name !! 3%nat)) ∧
    form !! "variables[SECRET_RESOURCE]" = Some resource_name ∧
    form !! "variables[GCP_PROJECT_ID]" = Some (dict_get environ "GCP_PROJECT_ID" "") ∧
    form !! "variables[TRIGGERED_BY]" = Some "gcp-secret-manager-webhook" ∧
    (∀ key, is_Some (form !! key) →
       key ∈ ["token"; "ref"; "variables[SECRET_EVENT_TYPE]";
              "variables[SECRET_NAME]"; "variables[SECRET_RESOURCE]";
              "variables[GCP_PROJECT_ID]"; "variables[TRIGGERED_BY]"]).
Proof.
  intros h resource_name Hreach. subst h.
  destruct (handle_discipline w environ event_data)
    as (rest & Hposts & _ & [Hh | (event_type & Het & Hp & Ht & Hh)]).
  { exfalso. rewrite Hh in Hreach. unfold reaches_trigger in Hreach.
    simpl in Hreach. apply existsb_filter_nil in Hposts. congruence. }
  cbv zeta in Hh. fold resource_name in Hh.
  set (secret_name := default "unknown" (Py.split "/" resource_name !! 3%nat)) in *.
  destruct (trigger_stage_trace w (read_config environ) event_type secret_name
              resource_name) as (prints & Hgo & Hpp & _).
  exists event_type,
    (stage_data (read_config environ) event_type secret_name resource_name).
  split; [done|]. split; [by eapply event_type_of_range|].
  split. { rewrite Hh, Hgo. simpl. rewrite posts_app, Hposts. simpl. by rewrite Hpp. }
  unfold stage_data.
  destruct (trigger_data_lookup (gitlab_trigger_token (read_config environ))
              (gitlab_ref (read_config environ))
              (pipeline_variables event_type secret_name resource_name
                 (gcp_project_id (read_config environ))))
    as (Htok & Href & Hvars & Honly).
  destruct (pipeline_variables_lookup event_type secret_name resource_name
              (gcp_project_id (read_config environ)))
    as (Hv1 & Hv2 & Hv3 & Hv4 & Hv5 & _).
  split; [done|]. split; [done|]. split; [done|]. split; [done|].
  split; [exact (eq_trans (Hvars "SECRET_EVENT_TYPE") Hv1)|].
  split; [exact (eq_trans (Hvars "SECRET_NAME") Hv2)|].
  split; [exact (eq_trans (Hvars "SECRET_RESOURCE") Hv3)|].
  split; [exact (eq_trans (Hvars "GCP_PROJECT_ID") Hv4)|].
  split; [exact (eq_trans (Hvars "TRIGGERED_BY") Hv5)|].
  intros key [value Hkey].
  destruct (Honly key value Hkey) as [-> | [-> | (k & -> & Hk)]].
  { apply list_elem_of_here. }
  { apply list_elem_of_further, list_elem_of_here. }
  unfold pipeline_variables in Hk.
  apply lookup_insert_Some in Hk as [[<- _] | [_ Hk]].
  { do 6 apply list_elem_of_further. apply list_elem_of_here. }
  apply lookup_insert_Some in Hk as [[<- _] | [_ Hk]].
  { do 5 apply list_elem_of_further. apply list_elem_of_here. }
  apply lookup_insert_Some in Hk as [[<- _] | [_ Hk]].
  { do 4 apply list_elem_of_further. apply list_elem_of_here. }
  apply lookup_insert_Some in Hk as [[<- _] | [_ Hk]].
  { do 3 apply list_elem_of_further. apply list_elem_of_here. }
  apply lookup_insert_Some in Hk as [[<- _] | [_ Hk]].
  { do 2 apply list_elem_of_further. apply list_elem_of_here. }
  by rewrite lookup_empty in Hk.
Qed.

Lemma outbound_request_content_witness :
  reaches_trigger (handle_secret_event (answering 201 ∅) sample_environ
                     (audit_event "CreateSecret" "projects/p/secrets/s")) = true ∧
  ∃ event_type form,
    event_type_of (method_name_of (audit_event "CreateSecret" "projects/p/secrets/s"))
      = Some event_type ∧
    posts (trace (handle_secret_event (answering 201 ∅) sample_environ
                    (audit_event "CreateSecret" "projects/p/secrets/s"))) =
      [Post "https://gitlab.com/api/v4/projects/7/trigger/pipeline" form 30] ∧
    form !! "variables[SECRET_NAME]" = Some "s".
Proof.
  split; [reflexivity|].
  destruct (outbound_request_content (answering 201 ∅) sample_environ
              (audit_event "CreateSecret" "projects/p/secrets/s") eq_refl)
    as (event_type & form & Het & _ & Hposts & _ & _ & _ & _ & _ & Hname & _).
  exists event_type, form. split; [exact Het|]. split; [exact Hposts | exact Hname].
Defined.

(** ** The label lookup *)

(** X11: [get_secret_labels] makes one lookup and returns what the Secret
    Manager holds, unchanged, a secret without labels giving the empty
    dictionary; it prints a line exactly when the lookup raises, and then
    the result is empty. *)
Theorem get_secret_labels_result (w : World) (secret_name : string) :
  let run := get_secret_labels w secret_name in
  let queried := strip_version secret_name in
  outcome run = Ok (labels_or_empty w queried) ∧
  (∀ labels, get_secret w queried = Ok labels →
     run = ([GetSecret queried], Ok labels)) ∧
  ((∃ m, Printed m ∈ trace run) ↔ ∃ e, get_secret w queried = Raise e) ∧
  ((∃ e, get_secret w queried = Raise e) → outcome run = Ok ∅).
Proof.
  intros run queried. subst run queried.
  rewrite get_secret_labels_run. unfold labels_or_empty.
  destruct (get_secret w (strip_version secret_name)) as [labels|e]; simpl.
  - split; [done|]. split; [by intros ? [= <-]|]. split; [|by intros [? ?]].
    split; [|by intros [? ?]].
    intros [m Hm]. apply list_elem_of_singleton in Hm. done.
  - split; [done|]. split; [done|]. split; [|done].
    split; [by eexists|]. intros _. eexists.
    apply list_elem_of_further, list_elem_of_here.
Qed.

Lemma get_secret_labels_result_witness :
  get_secret (answering 201 ∅) (strip_version "projects/p/secrets/s/versions/1")
    = Ok {[ "env" := "prod" ]} ∧
  get_secret_labels (answering 201 ∅) "projects/p/secrets/s/versions/1" =
  ([GetSecret (strip_version "projects/p/secrets/s/versions/1")],
   Ok {[ "env" := "prod" ]}).
Proof.
  split; [reflexivity|].
  apply (proj1 (proj2 (get_secret_labels_result (answering 201 ∅)
                         "projects/p/secrets/s/versions/1"))).
  reflexivity.
Defined.
